(** * Product inventory service: validation and CRUD over a SQLAlchemy session

    A shallow embedding of the two front ends of the repository,
    [tp1.py] (the desktop program) and [Part2/part2.py] (the SOAP service),
    over one model of the SQLAlchemy session API and of the [products]
    table that both files declare. *)

From Stdlib Require Import ZArith List String Ascii Bool Lia.
From Stdlib Require Import Sorting.Permutation.
From Stdlib Require Import Floats.SpecFloat.
From Stdlib Require Import Numbers.DecimalString.
Import ListNotations.

Local Open Scope Z_scope.

(** ** Python values *)

(** A Python [str] is a sequence of Unicode code points. *)
Definition pystr := list N.

(** The code points of an ASCII literal of the source. *)
Definition lit (s : string) : pystr :=
  map N_of_ascii (list_ascii_of_string s).

(** [str.isspace] on one code point: the characters [str.strip()] removes. *)
Definition isspace (c : N) : bool :=
  ((9 <=? c) && (c <=? 13) || (28 <=? c) && (c <=? 32)
   || (c =? 133) || (c =? 160) || (c =? 5760)
   || (8192 <=? c) && (c <=? 8202)
   || (c =? 8232) || (c =? 8233) || (c =? 8239) || (c =? 8287)
   || (c =? 12288))%N.

Fixpoint lstrip (s : pystr) : pystr :=
  match s with
  | [] => []
  | c :: t => if isspace c then lstrip t else s
  end.

Definition rstrip (s : pystr) : pystr := rev (lstrip (rev s)).

(** [s.strip()] *)
Definition strip (s : pystr) : pystr := rstrip (lstrip s).


(** [str(n)] for a Python [int]. *)
Definition str_int (n : Z) : pystr :=
  lit (NilZero.string_of_int (Z.to_int n)).

(** A Python [float] is an IEEE 754 value; only its order against zero is
    used by the code. *)
Definition float := spec_float.

(** [x < 0] for a float [x] (false for NaN, and for both zeros). *)
Definition float_ltb0 (x : float) : bool := SFltb x (S754_zero false).

(** [x >= 0] for a float [x] (false for NaN). *)
Definition float_geb0 (x : float) : bool := SFleb (S754_zero false) x.

Definition nan : float := S754_nan.

(** ** The [products] table

    [class Product(Base)]: [id] is the integer primary key, [name] is
    [String(100)], and no column is nullable.  A value of this record is a
    row of the table, which is also what a loaded [Product] instance shows. *)
Record Product := mkProduct {
  id : Z;
  name : pystr;
  price : float;
  quantity : Z
}.

(** The backing store: the rows in storage order, and the next value of the
    serial that feeds the primary key (a value is never handed out twice). *)
Record Db := mkDb {
  rows : list Product;
  next_id : Z
}.

(** What a [String(100)], [nullable=False] column keeps of a value, or [None]
    where the backend rejects it.  PostgreSQL refuses [NULL] and a string of
    more than 100 characters, unless the excess is all spaces, which it cuts
    off. *)
Definition column_name (v : option pystr) : option pystr :=
  match v with
  | None => None
  | Some s =>
      if (List.length s <=? 100)%nat then Some s
      else if forallb (N.eqb 32) (skipn 100 s) then Some (firstn 100 s)
      else None
  end.

(** The message of the error a rejected [name] raises; its text is not
    inspected by the code. *)
Definition column_name_error : pystr :=
  lit "value rejected by column products.name".

(** ** Sessions *)

(** The unit of work of a session: the one instance these programs ever put
    in a session, and what a flush has to do for it. *)
Inductive Work :=
| Idle
| New (name : option pystr) (price : float) (quantity : Z)
| Loaded (product_id : Z) (name : option pystr) (price : float) (quantity : Z)
| Doomed (product_id : Z).

Record World := mkWorld {
  db : Db;
  live : list (nat * Work);   (* sessions opened and not closed, newest first *)
  next_sid : nat
}.

Definition empty_db : Db := mkDb [] 1.
Definition empty_world : World := mkWorld empty_db [] 0.

(** The store calls that reach the database. *)
Inductive DbCall := CQuery | CCommit | CRefresh.

(** What the backend does to the calls of one operation: [Some cause] makes
    the call raise [SQLAlchemyError] with that message (connection lost,
    statement refused, ...). *)
Record Faults := mkFaults {
  on_query : option pystr;
  on_commit : option pystr;
  on_refresh : option pystr
}.

Definition no_faults : Faults := mkFaults None None None.

Definition fault (c : DbCall) (f : Faults) : option pystr :=
  match c with
  | CQuery => on_query f
  | CCommit => on_commit f
  | CRefresh => on_refresh f
  end.

(** What an operation does to the store, in order. *)
Inductive Event :=
| Open (sid : nat)
| Query (sid : nat)
| Commit (sid : nat)
| Refresh (sid : nat)
| Rollback (sid : nat)
| Close (sid : nat)
| Failed (c : DbCall) (cause : pystr).

(** ** Exceptions and the monad of the operations *)

Inductive exn :=
| ValueError (msg : pystr)
| SQLAlchemyError (msg : pystr)
| TypeError (msg : pystr)
| Exception_ (msg : pystr).

(** [str(e)] *)
Definition str_exn (e : exn) : pystr :=
  match e with
  | ValueError m | SQLAlchemyError m | TypeError m | Exception_ m => m
  end.

Inductive outcome (A : Type) :=
| Return (a : A)
| Raise (e : exn).
Arguments Return {A} a.
Arguments Raise {A} e.

(** A computation reads the fault plan, changes the world, and leaves a
    trace of the store events it caused. *)
Definition M (A : Type) : Type :=
  Faults -> World -> outcome A * World * list Event.

Definition ret {A} (a : A) : M A := fun _ w => (Return a, w, []).

Definition raise {A} (e : exn) : M A := fun _ w => (Raise e, w, []).

Definition bind {A B} (m : M A) (k : A -> M B) : M B :=
  fun f w =>
    match m f w with
    | (Return a, w1, t1) =>
        match k a f w1 with
        | (r, w2, t2) => (r, w2, t1 ++ t2)
        end
    | (Raise e, w1, t1) => (Raise e, w1, t1)
    end.

Declare Scope py_scope.
Delimit Scope py_scope with py.
Notation "x <- m ;; k" := (bind m (fun x => k))
  (at level 100, m at next level, right associativity) : py_scope.
Notation "m ;; k" := (bind m (fun _ => k))
  (at level 100, right associativity) : py_scope.

(** [try: body except C as e: handler e], where [handler] answers [None] for
    an exception that is not an instance of [C]. *)
Definition try_except {A} (body : M A) (handler : exn -> option (M A)) : M A :=
  fun f w =>
    match body f w with
    | (Return a, w1, t1) => (Return a, w1, t1)
    | (Raise e, w1, t1) =>
        match handler e with
        | Some h =>
            match h f w1 with
            | (r, w2, t2) => (r, w2, t1 ++ t2)
            end
        | None => (Raise e, w1, t1)
        end
    end.

(** [try: body finally: fin] *)
Definition try_finally {A} (body : M A) (fin : M unit) : M A :=
  fun f w =>
    match body f w with
    | (r, w1, t1) =>
        match fin f w1 with
        | (Return _, w2, t2) => (r, w2, t1 ++ t2)
        | (Raise e, w2, t2) => (Raise e, w2, t1 ++ t2)
        end
    end.

(** [except SQLAlchemyError as error] *)
Definition except_SQLAlchemyError {A} (h : pystr -> M A) (e : exn) : option (M A) :=
  match e with
  | SQLAlchemyError m => Some (h m)
  | _ => None
  end.

(** [except (ValueError, SQLAlchemyError) as e] *)
Definition except_ValueError_SQLAlchemyError {A} (h : exn -> M A) (e : exn)
  : option (M A) :=
  match e with
  | ValueError _ | SQLAlchemyError _ => Some (h e)
  | TypeError _ | Exception_ _ => None
  end.

Local Open Scope py_scope.

(** ** The SQLAlchemy session API *)

Definition emit (e : Event) : M unit := fun _ w => (Return tt, w, [e]).

(** A call that reaches the database raises when the fault plan says so. *)
Definition db_call (c : DbCall) : M unit :=
  fun f w =>
    match fault c f with
    | Some cause => (Raise (SQLAlchemyError cause), w, [Failed c cause])
    | None => (Return tt, w, [])
    end.

(** An error the database raises on its own account. *)
Definition db_error {A} (c : DbCall) (cause : pystr) : M A :=
  emit (Failed c cause) ;; raise (SQLAlchemyError cause).

Definition get_db : M Db := fun _ w => (Return (db w), w, []).

Definition put_db (d : Db) : M unit :=
  fun _ w => (Return tt, mkWorld d (live w) (next_sid w), []).

Fixpoint work_of (sid : nat) (l : list (nat * Work)) : Work :=
  match l with
  | [] => Idle
  | (s, x) :: t => if Nat.eqb s sid then x else work_of sid t
  end.

Fixpoint set_work (sid : nat) (x : Work) (l : list (nat * Work))
  : list (nat * Work) :=
  match l with
  | [] => []
  | (s, y) :: t =>
      if Nat.eqb s sid then (s, x) :: t else (s, y) :: set_work sid x t
  end.

Fixpoint drop_session (sid : nat) (l : list (nat * Work)) : list (nat * Work) :=
  match l with
  | [] => []
  | (s, y) :: t => if Nat.eqb s sid then t else (s, y) :: drop_session sid t
  end.

Definition get_work (sid : nat) : M Work :=
  fun _ w => (Return (work_of sid (live w)), w, []).

Definition put_work (sid : nat) (x : Work) : M unit :=
  fun _ w => (Return tt, mkWorld (db w) (set_work sid x (live w)) (next_sid w), []).

(** [SessionLocal()]: a new session; no connection is made yet. *)
Definition SessionLocal : M nat :=
  fun _ w =>
    let sid := next_sid w in
    (Return sid, mkWorld (db w) ((sid, Idle) :: live w) (S sid), [Open sid]).

(** [session.add(Product(name=name, price=price, quantity=quantity))] *)
Definition session_add (session : nat) (name : option pystr) (price : float)
    (quantity : Z) : M unit :=
  put_work session (New name price quantity).

Definition find_by_id (product_id : Z) (l : list Product) : option Product :=
  find (fun p => id p =? product_id) l.

Definition loaded (p : Product) : Work :=
  Loaded (id p) (Some (name p)) (price p) (quantity p).

(** [session.query(Product).filter(Product.id == product_id).first()] *)
Definition session_query_first (session : nat) (product_id : Z)
  : M (option Product) :=
  emit (Query session) ;;
  db_call CQuery ;;
  d <- get_db ;;
  match find_by_id product_id (rows d) with
  | Some p => put_work session (loaded p) ;; ret (Some p)
  | None => ret None
  end.

(** [session.query(Product).all()] *)
Definition session_query_all (session : nat) : M (list Product) :=
  emit (Query session) ;;
  db_call CQuery ;;
  d <- get_db ;;
  ret (rows d).

(** [product.name = name], [product.price = price],
    [product.quantity = quantity] on the instance the session loaded. *)
Definition set_name (session : nat) (v : option pystr) : M unit :=
  x <- get_work session ;;
  match x with
  | Loaded k _ p q => put_work session (Loaded k v p q)
  | _ => ret tt
  end.

Definition set_price (session : nat) (v : float) : M unit :=
  x <- get_work session ;;
  match x with
  | Loaded k n _ q => put_work session (Loaded k n v q)
  | _ => ret tt
  end.

Definition set_quantity (session : nat) (v : Z) : M unit :=
  x <- get_work session ;;
  match x with
  | Loaded k n p _ => put_work session (Loaded k n p v)
  | _ => ret tt
  end.

(** [session.delete(product)] *)
Definition session_delete (session : nat) (product : Product) : M unit :=
  put_work session (Doomed (id product)).

(** [UPDATE products SET ... WHERE id = k] on one row. *)
Definition set_row (k : Z) (n : pystr) (p : float) (q : Z) (r : Product)
  : Product :=
  if id r =? k then mkProduct (id r) n p q else r.

(** What the flush of a commit writes, or [None] where the database refuses
    the statement.  The table is kept in insertion order with an updated row
    in its place, and the price and the quantity are written as they come:
    the order in which PostgreSQL lists the rows after an update, and what
    it makes of the values named at [kept_as_given] below, are not part of
    this model. *)
Definition flush (x : Work) (d : Db) : option (Db * Work) :=
  match x with
  | Idle => Some (d, Idle)
  | New n p q =>
      match column_name n with
      | Some n' =>
          Some (mkDb (rows d ++ [mkProduct (next_id d) n' p q]) (next_id d + 1),
                Loaded (next_id d) (Some n') p q)
      | None => None
      end
  | Loaded k n p q =>
      match column_name n with
      | Some n' =>
          Some (mkDb (map (set_row k n' p q) (rows d)) (next_id d),
                Loaded k (Some n') p q)
      | None => None
      end
  | Doomed k =>
      Some (mkDb (filter (fun r => negb (id r =? k)) (rows d)) (next_id d), Idle)
  end.

(** [session.commit()]: all of the flush is written, or nothing is. *)
Definition session_commit (session : nat) : M unit :=
  emit (Commit session) ;;
  db_call CCommit ;;
  x <- get_work session ;;
  d <- get_db ;;
  match flush x d with
  | Some (d', x') => put_db d' ;; put_work session x'
  | None => db_error CCommit column_name_error
  end.

Definition refresh_error : pystr := lit "Could not refresh instance".

(** [session.refresh(product)] for the instance of the session: its
    attributes are read again from its row. *)
Definition session_refresh (session : nat) : M Product :=
  emit (Refresh session) ;;
  db_call CRefresh ;;
  x <- get_work session ;;
  d <- get_db ;;
  match x with
  | Loaded k _ _ _ =>
      match find_by_id k (rows d) with
      | Some p => put_work session (loaded p) ;; ret p
      | None => db_error CRefresh refresh_error
      end
  | _ => db_error CRefresh refresh_error
  end.

(** [session.rollback()]: what was not committed is dropped. *)
Definition session_rollback (session : nat) : M unit :=
  emit (Rollback session) ;;
  put_work session Idle.

(** [session.close()] *)
Definition session_close (session : nat) : M unit :=
  emit (Close session) ;;
  fun _ w =>
    (Return tt, mkWorld (db w) (drop_session session (live w)) (next_sid w), []).

(** [not name] *)
Definition not_ (name : option pystr) : bool :=
  match name with
  | None | Some [] => true
  | Some (_ :: _) => false
  end.

(** [name.strip() == ""] *)
Definition strip_is_empty (name : option pystr) : bool :=
  match name with
  | Some s => match strip s with [] => true | _ :: _ => false end
  | None => true
  end.

(** ** tp1.py *)
Module tp1.

(** The U+274C mark that opens the messages of this file. *)
Definition cross : pystr := [10060%N].

Definition validate_product (name : option pystr) (price : float)
    (quantity : Z) : M unit :=
  (if not_ name || strip_is_empty name
   then raise (ValueError (cross ++ lit " Name cannot be empty"))
   else ret tt) ;;
  (if float_ltb0 price
   then raise (ValueError (cross ++ lit " Price must be >= 0"))
   else ret tt) ;;
  (if quantity <? 0
   then raise (ValueError (cross ++ lit " Quantity must be >= 0"))
   else ret tt).

(** [except SQLAlchemyError as error: raise Exception(f"Database error: {error}")] *)
Definition database_error (error : pystr) : exn :=
  Exception_ (lit "Database error: " ++ error).

Definition create_product (name : option pystr) (price : float) (quantity : Z)
  : M Product :=
  validate_product name price quantity ;;
  session <- SessionLocal ;;
  try_finally
    (try_except
       (session_add session name price quantity ;;
        session_commit session ;;
        product <- session_refresh session ;;
        ret product)
       (except_SQLAlchemyError (fun error =>
          session_rollback session ;;
          raise (database_error error))))
    (session_close session).

Definition get_product (product_id : Z) : M (option Product) :=
  session <- SessionLocal ;;
  try_finally
    (try_except
       (session_query_first session product_id)
       (except_SQLAlchemyError (fun error => raise (database_error error))))
    (session_close session).

Definition get_all_products : M (list Product) :=
  session <- SessionLocal ;;
  try_finally
    (try_except
       (session_query_all session)
       (except_SQLAlchemyError (fun error => raise (database_error error))))
    (session_close session).

Definition update_product (product_id : Z) (name : option pystr)
    (price : float) (quantity : Z) : M (option Product) :=
  validate_product name price quantity ;;
  session <- SessionLocal ;;
  try_finally
    (try_except
       (product <- session_query_first session product_id ;;
        match product with
        | None => ret None
        | Some _ =>
            set_name session name ;;
            set_price session price ;;
            set_quantity session quantity ;;
            session_commit session ;;
            product <- session_refresh session ;;
            ret (Some product)
        end)
       (except_SQLAlchemyError (fun error =>
          session_rollback session ;;
          raise (database_error error))))
    (session_close session).

Definition delete_product (product_id : Z) : M bool :=
  session <- SessionLocal ;;
  try_finally
    (try_except
       (product <- session_query_first session product_id ;;
        match product with
        | None => ret false
        | Some product =>
            session_delete session product ;;
            session_commit session ;;
            ret true
        end)
       (except_SQLAlchemyError (fun error =>
          session_rollback session ;;
          raise (database_error error))))
    (session_close session).

End tp1.

(** ** Part2/part2.py *)
Module part2.

Definition validate_product (name : option pystr) (price : float)
    (quantity : Z) : M unit :=
  (if not_ name || strip_is_empty name
   then raise (ValueError (lit "Name cannot be empty"))
   else ret tt) ;;
  (if float_ltb0 price
   then raise (ValueError (lit "Price must be >= 0"))
   else ret tt) ;;
  (if quantity <? 0
   then raise (ValueError (lit "Quantity must be >= 0"))
   else ret tt).

Definition validate_id (pid : Z) : M unit :=
  if pid <=? 0
  then raise (ValueError (lit "Invalid Product ID (must be > 0)"))
  else ret tt.

(** [except (ValueError, SQLAlchemyError) as e: return f"Error: {str(e)}"] *)
Definition error_string : exn -> option (M pystr) :=
  except_ValueError_SQLAlchemyError (fun e => ret (lit "Error: " ++ str_exn e)).

Definition CreateProduct (name : option pystr) (price : float) (quantity : Z)
  : M pystr :=
  try_except
    (validate_product name price quantity ;;
     session <- SessionLocal ;;
     session_add session name price quantity ;;
     session_commit session ;;
     product <- session_refresh session ;;
     session_close session ;;
     ret (lit "Product created successfully (ID=" ++ str_int (id product)
          ++ lit ")"))
    error_string.

Definition UpdateProduct (product_id : Z) (name : option pystr)
    (price : float) (quantity : Z) : M pystr :=
  try_except
    (validate_id product_id ;;
     validate_product name price quantity ;;
     session <- SessionLocal ;;
     product <- session_query_first session product_id ;;
     match product with
     | None =>
         session_close session ;;
         ret (lit "Product not found")
     | Some _ =>
         set_name session name ;;
         set_price session price ;;
         set_quantity session quantity ;;
         session_commit session ;;
         session_close session ;;
         ret (lit "Product updated successfully (ID=" ++ str_int product_id
              ++ lit ")")
     end)
    error_string.

Definition DeleteProduct (product_id : Z) : M pystr :=
  try_except
    (validate_id product_id ;;
     session <- SessionLocal ;;
     product <- session_query_first session product_id ;;
     match product with
     | None =>
         session_close session ;;
         ret (lit "Product not found")
     | Some product =>
         session_delete session product ;;
         session_commit session ;;
         session_close session ;;
         ret (lit "Product deleted successfully (ID=" ++ str_int product_id
              ++ lit ")")
     end)
    error_string.

Section Formatting.

(** [str(x)] for a float [x], as the f-string of [GetProduct] prints it. *)
Variable str_float : float -> pystr.

Definition GetProduct (product_id : Z) : M pystr :=
  try_except
    (validate_id product_id ;;
     session <- SessionLocal ;;
     product <- session_query_first session product_id ;;
     session_close session ;;
     match product with
     | None => ret (lit "Product not found")
     | Some product =>
         ret (lit "ID=" ++ str_int (id product)
              ++ lit ", Name=" ++ name product
              ++ lit ", Price=" ++ str_float (price product)
              ++ lit ", Quantity=" ++ str_int (quantity product))
     end)
    error_string.

End Formatting.

End part2.

(** ** Part2/part2.py as spyne calls it *)

(** spyne hands a method [None] for an element that the request leaves out,
    whatever the declared type of the element.  The definitions of [part2]
    above are the operations on numbers that are there; these are the same
    lines of [part2.py] on arguments that may be absent, where [None < 0]
    and [None <= 0] raise [TypeError]. *)
Module ProductService.

(** The [TypeError] of an order comparison of [None] with an [int]. *)
Definition not_supported (op : pystr) : exn :=
  TypeError (lit "'" ++ op
             ++ lit "' not supported between instances of 'NoneType' and 'int'").

(** [price < 0] *)
Definition float_lt0 (price : option float) : M bool :=
  match price with
  | Some x => ret (float_ltb0 x)
  | None => raise (not_supported (lit "<"))
  end.

(** [quantity < 0] *)
Definition int_lt0 (quantity : option Z) : M bool :=
  match quantity with
  | Some x => ret (x <? 0)
  | None => raise (not_supported (lit "<"))
  end.

(** [pid <= 0] *)
Definition int_le0 (pid : option Z) : M bool :=
  match pid with
  | Some x => ret (x <=? 0)
  | None => raise (not_supported (lit "<="))
  end.

Definition validate_product (name : option pystr) (price : option float)
    (quantity : option Z) : M unit :=
  (if not_ name || strip_is_empty name
   then raise (ValueError (lit "Name cannot be empty"))
   else ret tt) ;;
  (negative <- float_lt0 price ;;
   if negative : bool
   then raise (ValueError (lit "Price must be >= 0"))
   else ret tt) ;;
  (negative <- int_lt0 quantity ;;
   if negative : bool
   then raise (ValueError (lit "Quantity must be >= 0"))
   else ret tt).

Definition validate_id (pid : option Z) : M unit :=
  not_positive <- int_le0 pid ;;
  if not_positive : bool
  then raise (ValueError (lit "Invalid Product ID (must be > 0)"))
  else ret tt.

(** In the methods, the lines after the validation run on numbers that are
    there: the comparison of an absent one has raised.  The branch for an
    absent number is never taken (see [validate_product_passes] and
    [validate_id_passes] below). *)
Definition CreateProduct (name : option pystr) (price : option float)
    (quantity : option Z) : M pystr :=
  try_except
    (validate_product name price quantity ;;
     match price, quantity with
     | Some price, Some quantity =>
         session <- SessionLocal ;;
         session_add session name price quantity ;;
         session_commit session ;;
         product <- session_refresh session ;;
         session_close session ;;
         ret (lit "Product created successfully (ID=" ++ str_int (id product)
              ++ lit ")")
     | _, _ => raise (not_supported (lit "<"))
     end)
    part2.error_string.

Definition UpdateProduct (product_id : option Z) (name : option pystr)
    (price : option float) (quantity : option Z) : M pystr :=
  try_except
    (validate_id product_id ;;
     validate_product name price quantity ;;
     match product_id, price, quantity with
     | Some product_id, Some price, Some quantity =>
         session <- SessionLocal ;;
         product <- session_query_first session product_id ;;
         match product with
         | None =>
             session_close session ;;
             ret (lit "Product not found")
         | Some _ =>
             set_name session name ;;
             set_price session price ;;
             set_quantity session quantity ;;
             session_commit session ;;
             session_close session ;;
             ret (lit "Product updated successfully (ID="
                  ++ str_int product_id ++ lit ")")
         end
     | _, _, _ => raise (not_supported (lit "<"))
     end)
    part2.error_string.

Definition DeleteProduct (product_id : option Z) : M pystr :=
  try_except
    (validate_id product_id ;;
     match product_id with
     | Some product_id =>
         session <- SessionLocal ;;
         product <- session_query_first session product_id ;;
         match product with
         | None =>
             session_close session ;;
             ret (lit "Product not found")
         | Some product =>
             session_delete session product ;;
             session_commit session ;;
             session_close session ;;
             ret (lit "Product deleted successfully (ID="
                  ++ str_int product_id ++ lit ")")
         end
     | None => raise (not_supported (lit "<="))
     end)
    part2.error_string.

Section Formatting.

Variable str_float : float -> pystr.

Definition GetProduct (product_id : option Z) : M pystr :=
  try_except
    (validate_id product_id ;;
     match product_id with
     | Some product_id =>
         session <- SessionLocal ;;
         product <- session_query_first session product_id ;;
         session_close session ;;
         match product with
         | None => ret (lit "Product not found")
         | Some product =>
             ret (lit "ID=" ++ str_int (id product)
                  ++ lit ", Name=" ++ name product
                  ++ lit ", Price=" ++ str_float (price product)
                  ++ lit ", Quantity=" ++ str_int (quantity product))
         end
     | None => raise (not_supported (lit "<="))
     end)
    part2.error_string.

End Formatting.

End ProductService.

(** ** Reading a run *)

Definition result {A} (r : outcome A * World * list Event) : outcome A :=
  fst (fst r).

Definition after {A} (r : outcome A * World * list Event) : World :=
  snd (fst r).

Definition trace {A} (r : outcome A * World * list Event) : list Event :=
  snd r.

(** A check that lets its input through, whatever the store is doing. *)
Definition accepts (m : M unit) : Prop :=
  forall f w, m f w = (Return tt, w, []).

(** A call that ended in [Exception("Database error: ...")]. *)
Definition store_error {A} (r : outcome A) : Prop :=
  exists m, r = Raise (Exception_ m).

(** ** Requests and runs *)

(** A value a function of [tp1.py] returns. *)
Inductive value :=
| VProduct (p : Product)
| VNone
| VBool (b : bool)
| VList (l : list Product).

(** [m] with its result wrapped as a [value]. *)
Definition returning {A B} (g : A -> B) (m : M A) : M B :=
  x <- m ;; ret (g x).

Definition of_option (o : option Product) : value :=
  match o with
  | Some p => VProduct p
  | None => VNone
  end.

(** A call of one of the five functions of [tp1.py]. *)
Inductive DesktopCall :=
| create_product_ (name : option pystr) (price : float) (quantity : Z)
| get_product_ (product_id : Z)
| get_all_products_
| update_product_ (product_id : Z) (name : option pystr) (price : float)
    (quantity : Z)
| delete_product_ (product_id : Z).

Definition desktop (c : DesktopCall) : M value :=
  match c with
  | create_product_ n p q => returning VProduct (tp1.create_product n p q)
  | get_product_ k => returning of_option (tp1.get_product k)
  | get_all_products_ => returning VList tp1.get_all_products
  | update_product_ k n p q => returning of_option (tp1.update_product k n p q)
  | delete_product_ k => returning VBool (tp1.delete_product k)
  end.

(** A call of one of the four operations of the SOAP service. *)
Inductive SoapCall :=
| CreateProduct_ (name : option pystr) (price : float) (quantity : Z)
| GetProduct_ (product_id : Z)
| UpdateProduct_ (product_id : Z) (name : option pystr) (price : float)
    (quantity : Z)
| DeleteProduct_ (product_id : Z).

Definition soap (str_float : float -> pystr) (c : SoapCall) : M pystr :=
  match c with
  | CreateProduct_ n p q => part2.CreateProduct n p q
  | GetProduct_ k => part2.GetProduct str_float k
  | UpdateProduct_ k n p q => part2.UpdateProduct k n p q
  | DeleteProduct_ k => part2.DeleteProduct k
  end.




(** A request to either front end, with what the backend does during it. *)
Inductive Request :=
| Desktop (c : DesktopCall) (f : Faults)
| Soap (c : SoapCall) (f : Faults).

(** The world after one request. *)
Definition serve (str_float : float -> pystr) (r : Request) (w : World)
  : World :=
  match r with
  | Desktop c f => after (desktop c f w)
  | Soap c f => after (soap str_float c f w)
  end.

(** The world after a sequence of requests, served in order. *)
Definition serve_all (str_float : float -> pystr) (rs : list Request)
    (w : World) : World :=
  fold_left (fun w r => serve str_float r w) rs w.

(** The results of a sequence of calls, each under its own fault plan, and
    the world they leave. *)
Fixpoint run_all {A} (ms : list (M A * Faults)) (w : World)
  : list (outcome A) * World :=
  match ms with
  | [] => ([], w)
  | (m, f) :: rest =>
      let '(r, w1, _) := m f w in
      let '(rs, w2) := run_all rest w1 in
      (r :: rs, w2)
  end.

Definition desktop_run (cs : list (DesktopCall * Faults)) (w : World)
  : list (outcome value) * World :=
  run_all (map (fun cf => (desktop (fst cf), snd cf)) cs) w.

(** ** Properties of the table and of the operations *)

(** [m] keeps the property [I] of the database. *)
Definition preserves (I : Db -> Prop) {A} (m : M A) : Prop :=
  forall f w, I (db w) -> I (db (after (m f w))).

(** Every stored name has at most 100 characters. *)
Definition names_fit (d : Db) : Prop :=
  forall r, In r (rows d) -> (List.length (name r) <= 100)%nat.

(** The invariant of the data model: the name is not empty once trimmed,
    the price is at least 0, the quantity is at least 0. *)
Definition well_formed (r : Product) : Prop :=
  strip (name r) <> [] /\ float_geb0 (price r) = true /\ 0 <= quantity r.

(** The invariant of the data model with the price test as the code writes
    it: not below zero. *)
Definition acceptable (r : Product) : Prop :=
  strip (name r) <> [] /\ float_ltb0 (price r) = false /\ 0 <= quantity r.

Definition rows_acceptable (d : Db) : Prop :=
  forall r, In r (rows d) -> acceptable r.

(** The primary key: identifiers are distinct, and all below the next value
    of the serial. *)
Definition wf_db (d : Db) : Prop :=
  NoDup (map id (rows d)) /\ forall r, In r (rows d) -> id r < next_id d.

(** A code point that a stored text can hold: not NUL, not a surrogate, and
    at most U+10FFFF. *)
Definition stored_char (c : N) : bool :=
  ((0 <? c) && (c <? 55296) || (57343 <? c) && (c <=? 1114111))%N.

(** Values that the backend keeps exactly as given.  The driver refuses a
    name with a NUL or a surrogate in it, the [name] column holds 100
    characters (see [column_name]), PostgreSQL reads the price -0.0 as 0.0,
    and the [quantity] column holds 32 bits.  A statement about the values
    of a stored row asks for this. *)
Definition kept_as_given (s : pystr) (p : float) (q : Z) : Prop :=
  (List.length s <= 100)%nat /\
  forallb stored_char s = true /\
  p <> S754_zero true /\
  - 2 ^ 31 <= q < 2 ^ 31.


(** What [tp1.py] does when a store call of an operation raises: the session
    is rolled back and closed, the operation raises
    [Exception("Database error: <cause>")], and unless the error came from
    the refresh that follows the commit, the rows are those of before. *)
Definition rolls_back {A} (m : M A) (f : Faults) (w : World) : Prop :=
  forall c cause,
    In (Failed c cause) (trace (m f w)) ->
    result (m f w) = Raise (tp1.database_error cause) /\
    In (Rollback (next_sid w)) (trace (m f w)) /\
    live (after (m f w)) = live w /\
    (c <> CRefresh -> rows (db (after (m f w))) = rows (db w)).


(** 1 for a create that returned its record. *)
Definition created (c : DesktopCall) (r : outcome value) : nat :=
  match c, r with
  | create_product_ _ _ _, Return _ => 1
  | _, _ => 0
  end.

(** 1 for a delete that returned [True]. *)
Definition deleted (c : DesktopCall) (r : outcome value) : nat :=
  match c, r with
  | delete_product_ _, Return (VBool true) => 1
  | _, _ => 0
  end.

Fixpoint total (g : DesktopCall -> outcome value -> nat)
    (cs : list (DesktopCall * Faults)) (rs : list (outcome value)) : nat :=
  match cs, rs with
  | (c, _) :: cs', r :: rs' => g c r + total g cs' rs'
  | _, _ => 0
  end.

(** ** Sample inputs *)

Definition widget : pystr := lit "Widget".

Definition gadget : pystr := lit "Gadget".

(** A name of 101 characters that passes validation. *)
Definition long_name : pystr := repeat 87%N 101.

(** 9.99 and 12.5 as binary64 values. *)
Definition f9_99 : float := S754_finite false 5623870034678907 (-49).
Definition f12_5 : float := S754_finite false 7036874417766400 (-49).

Definition connection_lost : pystr := lit "connection lost".
Definition query_fails : Faults := mkFaults (Some connection_lost) None None.
Definition commit_fails : Faults := mkFaults None (Some connection_lost) None.
Definition refresh_fails : Faults := mkFaults None None (Some connection_lost).

(** A store that holds the one product of the sample scenario. *)
Definition one_widget : World :=
  mkWorld (mkDb [mkProduct 1 widget f9_99 5] 2) [] 0.

(** Two creates, a delete that finds its row, a second delete of the same
    identifier, an update and a create that validation refuses. *)
Definition sample_calls : list (DesktopCall * Faults) :=
  [(create_product_ (Some widget) f9_99 5, no_faults);
   (create_product_ (Some gadget) f12_5 3, no_faults);
   (delete_product_ 1, no_faults);
   (delete_product_ 1, no_faults);
   (update_product_ 2 (Some gadget) f9_99 7, no_faults);
   (create_product_ (Some []) f9_99 1, no_faults)].

(** ** The window of tp1.py *)

(** A message box the window has shown. *)
Inductive Dialog :=
| information (title text : pystr)
| warning (title text : pystr)
| critical (title text : pystr).

(** The widgets of [ProductGUI] that its handlers read and write: the four
    input lines, the output area, and the message boxes shown so far. *)
Record Gui := mkGui {
  id_input : pystr;
  name_input : pystr;
  price_input : pystr;
  quantity_input : pystr;
  output : pystr;
  dialogs : list Dialog
}.

(** What [float(text)] or [int(text)] gives: the number, or the message of
    the [ValueError] it raises. *)
Inductive parse (A : Type) :=
| Parsed (a : A)
| Invalid (msg : pystr).
Arguments Parsed {A} a.
Arguments Invalid {A} msg.

(** A handler changes the window and the world, and leaves a trace of store
    events. *)
Definition GM (A : Type) : Type :=
  Gui -> World -> outcome A * Gui * World * list Event.

Definition gret {A} (a : A) : GM A := fun g w => (Return a, g, w, []).

Definition graise {A} (e : exn) : GM A := fun g w => (Raise e, g, w, []).

Definition gbind {A B} (m : GM A) (k : A -> GM B) : GM B :=
  fun g w =>
    match m g w with
    | (Return a, g1, w1, t1) =>
        match k a g1 w1 with
        | (r, g2, w2, t2) => (r, g2, w2, t1 ++ t2)
        end
    | (Raise e, g1, w1, t1) => (Raise e, g1, w1, t1)
    end.

(** [try: body except Exception as e: handler e]: every exception of the
    model is an [Exception]. *)
Definition try_except_Exception {A} (body : GM A) (handler : exn -> GM A)
  : GM A :=
  fun g w =>
    match body g w with
    | (Return a, g1, w1, t1) => (Return a, g1, w1, t1)
    | (Raise e, g1, w1, t1) =>
        match handler e g1 w1 with
        | (r, g2, w2, t2) => (r, g2, w2, t1 ++ t2)
        end
    end.

(** A call of a function of the service, under the fault plan of that call. *)
Definition call {A} (m : M A) (f : Faults) : GM A :=
  fun g w =>
    match m f w with
    | (r, w1, t) => (r, g, w1, t)
    end.

Definition of_parse {A} (x : parse A) : GM A :=
  match x with
  | Parsed a => gret a
  | Invalid msg => graise (ValueError msg)
  end.

(** [field.text()] *)
Definition text_of (field : Gui -> pystr) : GM pystr :=
  fun g w => (Return (field g), g, w, []).

Definition update_gui (h : Gui -> Gui) : GM unit :=
  fun g w => (Return tt, h g, w, []).

(** [QMessageBox.information], [.warning] and [.critical] *)
Definition show_dialog (d : Dialog) : GM unit :=
  update_gui (fun g =>
    mkGui (id_input g) (name_input g) (price_input g) (quantity_input g)
          (output g) (dialogs g ++ [d])).

(** [self.output.setText(text)] *)
Definition output_setText (text : pystr) : GM unit :=
  update_gui (fun g =>
    mkGui (id_input g) (name_input g) (price_input g) (quantity_input g)
          text (dialogs g)).

(** [self.output.clear()] *)
Definition output_clear : GM unit := output_setText [].

Definition g_result {A} (r : outcome A * Gui * World * list Event)
  : outcome A := fst (fst (fst r)).

Definition g_gui {A} (r : outcome A * Gui * World * list Event) : Gui :=
  snd (fst (fst r)).

Definition g_world {A} (r : outcome A * Gui * World * list Event) : World :=
  snd (fst r).

Definition g_trace {A} (r : outcome A * Gui * World * list Event)
  : list Event := snd r.

(** The line feed of the f-strings. *)
Definition nl : pystr := [10%N].

Declare Scope gui_scope.
Delimit Scope gui_scope with gui.
Notation "x <- m ;; k" := (gbind m (fun x => k))
  (at level 100, m at next level, right associativity) : gui_scope.
Notation "m ;; k" := (gbind m (fun _ => k))
  (at level 100, right associativity) : gui_scope.

Module ProductGUI.

Local Open Scope gui_scope.

Section Builtins.

(** [float(text)], [int(text)] and [str(x)] for a float [x]. *)
Variable py_float : pystr -> parse float.
Variable py_int : pystr -> parse Z.
Variable str_float : float -> pystr.

Definition clear_inputs : GM unit :=
  update_gui (fun g => mkGui [] [] [] [] (output g) (dialogs g)).

Definition get_inputs_for_create_update : GM (pystr * float * Z) :=
  name <- text_of name_input ;;
  t <- text_of price_input ;;
  price <- of_parse (py_float t) ;;
  t <- text_of quantity_input ;;
  quantity <- of_parse (py_int t) ;;
  gret (name, price, quantity).

(** One line of the list that [show_products] prints. *)
Definition product_line (p : Product) : pystr :=
  lit "ID=" ++ str_int (id p) ++ lit " | Name=" ++ name p
  ++ lit " | Price=" ++ str_float (price p)
  ++ lit " | Qty=" ++ str_int (quantity p) ++ nl.

(** What the output area shows for a list of products: a notice when there
    is none, else a header and one line per product, in order. *)
Definition listing (products : list Product) : pystr :=
  match products with
  | [] => lit " No products found."
  | _ :: _ =>
      lit " Product List:" ++ nl ++ nl
      ++ List.concat (map product_line products)
  end.

(** The price and quantity lines parse to [p] and [q], and with the name
    line these values pass [validate_product]. *)
Definition inputs_accepted (g : Gui) (p : float) (q : Z) : Prop :=
  py_float (price_input g) = Parsed p /\
  py_int (quantity_input g) = Parsed q /\
  accepts (tp1.validate_product (Some (name_input g)) p q).

(** The price, quantity and name lines cannot be saved, and [msg] is the
    text of the [ValueError] that says so: the one of [float] on the price
    line, else the one of [int] on the quantity line, else the one of
    [validate_product]. *)
Definition inputs_refused (g : Gui) (msg : pystr) : Prop :=
  match py_float (price_input g) with
  | Invalid m => msg = m
  | Parsed p =>
      match py_int (quantity_input g) with
      | Invalid m => msg = m
      | Parsed q =>
          forall f w,
            tp1.validate_product (Some (name_input g)) p q f w
            = (Raise (ValueError msg), w, [])
      end
  end.

Definition show_products (f : Faults) : GM unit :=
  try_except_Exception
    (products <- call tp1.get_all_products f ;;
     output_clear ;;
     match products with
     | [] => output_setText (lit " No products found.")
     | _ :: _ =>
         output_setText
           (fold_left (fun text_result p => text_result ++ product_line p)
                      products (lit " Product List:" ++ nl ++ nl))
     end)
    (fun e => show_dialog (critical (lit "Error") (str_exn e))).

Definition add_product (f_create f_list : Faults) : GM unit :=
  try_except_Exception
    (inputs <- get_inputs_for_create_update ;;
     let '(name, price, quantity) := inputs in
     product <- call (tp1.create_product (Some name) price quantity) f_create ;;
     show_dialog (information (lit "Success")
                    (lit " Product added (ID=" ++ str_int (id product)
                     ++ lit ")")) ;;
     show_products f_list ;;
     clear_inputs)
    (fun e => show_dialog (critical (lit "Error") (str_exn e))).

Definition not_found : Dialog :=
  warning (lit "Not Found") (lit " Product not found").

Definition update_product (f_update f_list : Faults) : GM unit :=
  try_except_Exception
    (t <- text_of id_input ;;
     product_id <- of_parse (py_int t) ;;
     inputs <- get_inputs_for_create_update ;;
     let '(name, price, quantity) := inputs in
     updated <- call (tp1.update_product product_id (Some name) price quantity)
                     f_update ;;
     match updated with
     | Some _ =>
         show_dialog (information (lit "Success")
                        (lit " Product updated (ID=" ++ str_int product_id
                         ++ lit ")"))
     | None => show_dialog not_found
     end ;;
     show_products f_list ;;
     clear_inputs)
    (fun e => show_dialog (critical (lit "Error") (str_exn e))).

Definition delete_product (f_delete f_list : Faults) : GM unit :=
  try_except_Exception
    (t <- text_of id_input ;;
     product_id <- of_parse (py_int t) ;;
     success <- call (tp1.delete_product product_id) f_delete ;;
     (if success : bool
      then show_dialog (information (lit "Success")
                          (lit " Product deleted (ID=" ++ str_int product_id
                           ++ lit ")"))
      else show_dialog not_found) ;;
     show_products f_list ;;
     clear_inputs)
    (fun e => show_dialog (critical (lit "Error") (str_exn e))).

(** The text [search_product] prints for a product it found. *)
Definition product_found (p : Product) : pystr :=
  lit " Product Found:" ++ nl ++ nl
  ++ lit "ID: " ++ str_int (id p) ++ nl
  ++ lit "Name: " ++ name p ++ nl
  ++ lit "Price: " ++ str_float (price p) ++ nl
  ++ lit "Quantity: " ++ str_int (quantity p) ++ nl.

Definition search_product (f : Faults) : GM unit :=
  try_except_Exception
    (t <- text_of id_input ;;
     product_id <- of_parse (py_int t) ;;
     product <- call (tp1.get_product product_id) f ;;
     output_clear ;;
     match product with
     | Some p => output_setText (product_found p)
     | None => output_setText (lit " Product not found")
     end)
    (fun e => show_dialog (critical (lit "Error") (str_exn e))).

End Builtins.

End ProductGUI.

(** ** Further properties of the operations *)

(** A name is blank when it is absent or made of whitespace only, the empty
    string included. *)
Definition blank (n : option pystr) : Prop :=
  match n with
  | None => True
  | Some s => forallb isspace s = true
  end.

(** The sessions a trace opens, and those it closes, in order. *)
Definition opened (t : list Event) : list nat :=
  flat_map (fun e => match e with Open s => [s] | _ => [] end) t.

Definition closed (t : list Event) : list nat :=
  flat_map (fun e => match e with Close s => [s] | _ => [] end) t.

(** ** Sample input of the window *)

Fixpoint pystr_eqb (a b : pystr) : bool :=
  match a, b with
  | [], [] => true
  | x :: a', y :: b' => (x =? y)%N && pystr_eqb a' b'
  | _, _ => false
  end.

(** A stand-in for [int]: it reads a plain run of decimal digits. *)
Fixpoint digits (s : pystr) (acc : Z) : option Z :=
  match s with
  | [] => Some acc
  | c :: t =>
      if ((48 <=? c) && (c <=? 57))%N
      then digits t (10 * acc + Z.of_N (c - 48))
      else None
  end.

Definition sample_int (s : pystr) : parse Z :=
  match s, digits s 0 with
  | _ :: _, Some z => Parsed z
  | _, _ => Invalid (lit "invalid literal for int() with base 10")
  end.

(** A stand-in for [float] and for the printing of a float, on the three
    prices of the samples. *)
Definition sample_float (s : pystr) : parse float :=
  if pystr_eqb s (lit "9.99") then Parsed f9_99
  else if pystr_eqb s (lit "12.5") then Parsed f12_5
  else if pystr_eqb s (lit "nan") then Parsed nan
  else Invalid (lit "could not convert string to float").

Definition sample_str_float (x : float) : pystr :=
  if SFeqb x f9_99 then lit "9.99"
  else if SFeqb x f12_5 then lit "12.5"
  else lit "nan".

(** The form filled in for the sample product, and filled in with a price
    that is no number. *)
Definition widget_form : Gui :=
  mkGui (lit "1") widget (lit "9.99") (lit "5") [] [].

Definition broken_form : Gui :=
  mkGui (lit "1") widget (lit "abc") (lit "5") [] [].

(** ** Stepping through an operation *)

Lemma work_of_head sid x l : work_of sid ((sid, x) :: l) = x.
Proof. simpl. now rewrite Nat.eqb_refl. Qed.

Lemma set_work_head sid x y l :
  set_work sid y ((sid, x) :: l) = (sid, y) :: l.
Proof. simpl. now rewrite Nat.eqb_refl. Qed.

Lemma drop_session_head sid x l : drop_session sid ((sid, x) :: l) = l.
Proof. simpl. now rewrite Nat.eqb_refl. Qed.

Ltac unfold_api :=
  unfold session_add, session_query_first, session_query_all, set_name,
    set_price, set_quantity, session_delete, session_commit, session_refresh,
    session_rollback, session_close, SessionLocal, db_error, db_call, emit,
    get_db, put_db, get_work, put_work, except_SQLAlchemyError,
    except_ValueError_SQLAlchemyError, try_except, try_finally, bind, ret,
    raise, fault, flush.

Ltac step :=
  repeat (progress
    (cbn [fst snd db live next_sid rows next_id app loaded id name price
          quantity result after trace str_exn on_query on_commit on_refresh];
     rewrite ?work_of_head, ?set_work_head, ?drop_session_head)).

Ltac destruct_stuck :=
  match goal with
  | |- context [match ?x with _ => _ end] =>
      lazymatch x with
      | context [match _ with _ => _ end] => fail
      | _ => destruct x eqn:?
      end
  end.

Ltac exec := unfold_api; repeat (step; try destruct_stuck).

(** Membership of an event in an explicit trace. *)
Ltac in_trace H :=
  simpl in H;
  repeat (destruct H as [H | H];
          [ try discriminate H; try (injection H as <- <-) | ]);
  try contradiction.

(** ** Validation *)

(** Validation never touches the store: it lets the input through or raises
    [ValueError], leaving the world as it was. *)
Lemma tp1_validate_product_cases n p q f w :
  tp1.validate_product n p q f w = (Return tt, w, []) \/
  exists msg, tp1.validate_product n p q f w = (Raise (ValueError msg), w, []).
Proof.
  unfold tp1.validate_product, bind, ret, raise.
  destruct (not_ n || strip_is_empty n); [right; eauto |].
  destruct (float_ltb0 p); [right; eauto |].
  destruct (q <? 0); [right; eauto | left; reflexivity].
Qed.

Lemma part2_validate_product_cases n p q f w :
  part2.validate_product n p q f w = (Return tt, w, []) \/
  exists msg, part2.validate_product n p q f w = (Raise (ValueError msg), w, []).
Proof.
  unfold part2.validate_product, bind, ret, raise.
  destruct (not_ n || strip_is_empty n); [right; eauto |].
  destruct (float_ltb0 p); [right; eauto |].
  destruct (q <? 0); [right; eauto | left; reflexivity].
Qed.

Lemma part2_validate_id_cases pid f w :
  (0 < pid /\ part2.validate_id pid f w = (Return tt, w, [])) \/
  (pid <= 0 /\
   part2.validate_id pid f w
   = (Raise (ValueError (lit "Invalid Product ID (must be > 0)")), w, [])).
Proof.
  unfold part2.validate_id, ret, raise.
  destruct (Z.leb_spec pid 0); [right | left]; split; auto.
Qed.



Lemma lstrip_nil s : lstrip s = [] <-> forallb isspace s = true.
Proof.
  induction s as [| c t IH]; simpl; [tauto |].
  destruct (isspace c); simpl; [exact IH |].
  split; discriminate.
Qed.

Lemma lstrip_head s c t : lstrip s = c :: t -> isspace c = false.
Proof.
  induction s as [| a s IH]; simpl; [discriminate |].
  destruct (isspace a) eqn:E; [exact IH |].
  intros [= <- _]. exact E.
Qed.

Lemma forallb_rev {A} (g : A -> bool) l :
  forallb g (rev l) = true <-> forallb g l = true.
Proof.
  rewrite !forallb_forall.
  split; intros H x Hx; apply H; [now apply in_rev in Hx | now apply in_rev].
Qed.

Lemma rev_nil {A} (l : list A) : rev l = [] <-> l = [].
Proof.
  split; intros H; [| now subst].
  destruct l as [| a l]; [reflexivity |].
  simpl in H. now destruct (rev l).
Qed.

Lemma strip_nil s : strip s = [] <-> forallb isspace s = true.
Proof.
  unfold strip, rstrip. split; intros H.
  - apply (proj1 (rev_nil _)) in H. apply (proj1 (lstrip_nil _)) in H.
    apply (proj1 (forallb_rev _ _)) in H. apply lstrip_nil.
    destruct (lstrip s) as [| c t] eqn:E; [reflexivity |].
    apply lstrip_head in E. cbn [forallb] in H. rewrite E in H.
    discriminate H.
  - apply lstrip_nil in H. rewrite H. reflexivity.
Qed.

(** The name test of [validate_product], in the words of the data model. *)
Lemma name_test (n : option pystr) :
  not_ n || strip_is_empty n = false <-> exists s, n = Some s /\ strip s <> [].
Proof.
  destruct n as [s |]; simpl.
  - split.
    + intros H. exists s. split; [reflexivity |].
      apply orb_false_iff in H as [_ H].
      intros E. rewrite E in H. discriminate H.
    + intros (s' & [= <-] & H).
      destruct s as [| c t]; [now elim H |].
      destruct (strip (c :: t)); [now elim H | reflexivity].
  - split; [discriminate | intros (s & H & _); discriminate H].
Qed.

Lemma tp1_validate_product_accepts n p q :
  accepts (tp1.validate_product n p q) <->
  (exists s, n = Some s /\ strip s <> []) /\ float_ltb0 p = false /\ 0 <= q.
Proof.
  rewrite <- name_test.
  unfold accepts, tp1.validate_product, bind, ret, raise.
  destruct (not_ n || strip_is_empty n);
    [split; [intros H; discriminate (H no_faults empty_world)
            | intros (H & _); discriminate H] |].
  destruct (float_ltb0 p);
    [split; [intros H; discriminate (H no_faults empty_world)
            | intros (_ & H & _); discriminate H] |].
  destruct (Z.ltb_spec q 0);
    [split; [intros H'; discriminate (H' no_faults empty_world)
            | intros (_ & _ & H'); lia] |].
  split; [auto | reflexivity].
Qed.


(** A float that is not below zero is at least zero, or is NaN. *)
Lemma not_below_zero (x : float) :
  float_ltb0 x = false -> float_geb0 x = true \/ x = nan.
Proof.
  destruct x as [s | s | | s m e]; try destruct s; simpl; auto; discriminate.
Qed.

(** ** Lookups and the name column *)

Lemma find_by_id_id k l p : find_by_id k l = Some p -> id p = k.
Proof.
  unfold find_by_id. intros H. apply find_some in H.
  now apply Z.eqb_eq.
Qed.



Lemma find_by_id_set_row k n p q l r :
  find_by_id k l = Some r ->
  find_by_id k (map (set_row k n p q) l) = Some (mkProduct k n p q).
Proof.
  unfold find_by_id.
  induction l as [| a l IH]; simpl; [discriminate |].
  destruct (id a =? k) eqn:E.
  - intros _.
    assert (set_row k n p q a = mkProduct k n p q) as ->
      by (unfold set_row; rewrite E; apply Z.eqb_eq in E; congruence).
    simpl. now rewrite Z.eqb_refl.
  - assert (set_row k n p q a = a) as -> by (unfold set_row; now rewrite E).
    rewrite E. exact IH.
Qed.


Lemma find_by_id_last k l r :
  id r = k -> find_by_id k (l ++ [r]) <> None.
Proof.
  unfold find_by_id. intros Hr H.
  assert (Hin : In r (l ++ [r])) by (apply in_app_iff; simpl; auto).
  pose proof (find_none _ _ H r Hin) as E. simpl in E.
  rewrite Hr, Z.eqb_refl in E. discriminate E.
Qed.

Lemma column_name_length v s :
  column_name v = Some s -> (List.length s <= 100)%nat.
Proof.
  unfold column_name. destruct v as [l |]; [| discriminate].
  destruct (List.length l <=? 100)%nat eqn:E.
  - intros [= <-]. now apply Nat.leb_le.
  - destruct (forallb _ _); [| discriminate].
    intros H. replace s with (firstn 100 l) by congruence.
    apply firstn_le_length.
Qed.

Lemma column_name_short (s : pystr) :
  (List.length s <= 100)%nat -> column_name (Some s) = Some s.
Proof.
  intros H. unfold column_name.
  apply Nat.leb_le in H. now rewrite H.
Qed.

(** A name that is not blank is not blank as the column keeps it. *)
Lemma column_name_keeps_name (s s' : pystr) :
  column_name (Some s) = Some s' -> strip s <> [] -> strip s' <> [].
Proof.
  unfold column_name.
  destruct (List.length s <=? 100)%nat; [now intros [= <-] |].
  destruct (forallb (N.eqb 32) (skipn 100 s)) eqn:E; [| discriminate].
  intros H Hs Hs'. replace s' with (firstn 100 s) in Hs' by congruence.
  apply Hs. apply strip_nil. apply strip_nil in Hs'.
  rewrite <- (firstn_skipn 100 s), forallb_app, Hs'.
  rewrite forallb_forall in E. apply forallb_forall.
  intros c Hc. apply E in Hc. apply N.eqb_eq in Hc. now subst c.
Qed.

(** ** Identifiers that are not positive *)

(** C1, counterexample: [tp1.get_product] has no check of the identifier;
    called with 0 on an empty store it opens a session, issues its query and
    returns [None]. *)
Lemma C1_get_product_zero_queries_store :
  tp1.get_product 0 no_faults empty_world
  = (Return None, mkWorld empty_db [] 1, [Open 0; Query 0; Close 0]).
Proof. reflexivity. Qed.

(** C1, as amended: for an identifier that is not positive, [validate_id]
    raises [ValueError], and the SOAP operations [GetProduct],
    [UpdateProduct] and [DeleteProduct], which call it first, return the
    error string without creating a session or issuing a query: the world is
    untouched and the trace is empty. *)
Theorem C1_soap_rejects_nonpositive_id
    (str_float : float -> pystr) (pid : Z) (Hpid : pid <= 0)
    (f : Faults) (w : World) :
  let msg := lit "Invalid Product ID (must be > 0)" in
  part2.validate_id pid f w = (Raise (ValueError msg), w, []) /\
  part2.GetProduct str_float pid f w = (Return (lit "Error: " ++ msg), w, []) /\
  (forall n p q,
      part2.UpdateProduct pid n p q f w = (Return (lit "Error: " ++ msg), w, [])) /\
  part2.DeleteProduct pid f w = (Return (lit "Error: " ++ msg), w, []).
Proof.
  intros msg.
  destruct (part2_validate_id_cases pid f w) as [[Hpos _] | [_ Hv]]; [lia |].
  repeat split; intros;
    unfold part2.GetProduct, part2.UpdateProduct, part2.DeleteProduct,
      part2.error_string, try_except, bind;
    rewrite ?Hv; reflexivity.
Qed.

(** [DeleteProduct(-3)] on the empty store. *)
Lemma C1_soap_rejects_nonpositive_id_witness :
  part2.DeleteProduct (-3) no_faults empty_world
  = (Return (lit "Error: Invalid Product ID (must be > 0)"), empty_world, []).
Proof.
  exact (proj2 (proj2 (proj2
    (C1_soap_rejects_nonpositive_id (fun _ => []) (-3) ltac:(lia)
       no_faults empty_world)))).
Defined.

(** ** Sessions and their release *)

(** Every function of [tp1.py] closes the session it opened, on every path:
    the sessions left open are those that were open before. *)
Lemma tp1_session_released :
  forall f w,
    (forall n p q, live (after (tp1.create_product n p q f w)) = live w) /\
    (forall pid, live (after (tp1.get_product pid f w)) = live w) /\
    live (after (tp1.get_all_products f w)) = live w /\
    (forall pid n p q, live (after (tp1.update_product pid n p q f w)) = live w) /\
    (forall pid, live (after (tp1.delete_product pid f w)) = live w).
Proof.
  intros f w. repeat split; intros.
  - unfold tp1.create_product. unfold bind at 1.
    destruct (tp1_validate_product_cases n p q f w) as [-> | [m ->]];
      [| reflexivity].
    exec; reflexivity.
  - unfold tp1.get_product. exec; reflexivity.
  - unfold tp1.get_all_products. exec; reflexivity.
  - unfold tp1.update_product. unfold bind at 1.
    destruct (tp1_validate_product_cases n p q f w) as [-> | [m ->]];
      [| reflexivity].
    exec; reflexivity.
  - unfold tp1.delete_product. exec; reflexivity.
Qed.

(** C2: in the SOAP service, whenever a store call of an operation raises,
    the operation returns the error string without reaching
    [session.close()]: the session it opened is still open when it returns,
    and the trace holds no [Close]. *)
Theorem C2_soap_store_error_leaves_session_open
    (str_float : float -> pystr) (c : SoapCall) (f : Faults) (w : World)
    (k : DbCall) (cause : pystr)
    (Hfail : In (Failed k cause) (trace (soap str_float c f w))) :
  result (soap str_float c f w) = Return (lit "Error: " ++ cause) /\
  (exists x, live (after (soap str_float c f w)) = (next_sid w, x) :: live w) /\
  ~ In (Close (next_sid w)) (trace (soap str_float c f w)).
Proof.
  revert Hfail.
  destruct c as [n p q | pid | pid n p q | pid]; unfold soap.
  - unfold part2.CreateProduct, part2.error_string, try_except, bind.
    destruct (part2_validate_product_cases n p q f w) as [-> | [m ->]];
      [| intros H; in_trace H].
    exec; intros H; in_trace H;
      (split; [reflexivity |]; split; [eexists; reflexivity |]);
      simpl; intuition discriminate.
  - unfold part2.GetProduct, part2.error_string, try_except, bind.
    destruct (part2_validate_id_cases pid f w) as [[_ ->] | [_ ->]];
      [| intros H; in_trace H].
    exec; intros H; in_trace H;
      (split; [reflexivity |]; split; [eexists; reflexivity |]);
      simpl; intuition discriminate.
  - unfold part2.UpdateProduct, part2.error_string, try_except, bind.
    destruct (part2_validate_id_cases pid f w) as [[_ ->] | [_ ->]];
      [| intros H; in_trace H].
    destruct (part2_validate_product_cases n p q f w) as [-> | [m ->]];
      [| intros H; in_trace H].
    exec; intros H; in_trace H;
      (split; [reflexivity |]; split; [eexists; reflexivity |]);
      simpl; intuition discriminate.
  - unfold part2.DeleteProduct, part2.error_string, try_except, bind.
    destruct (part2_validate_id_cases pid f w) as [[_ ->] | [_ ->]];
      [| intros H; in_trace H].
    exec; intros H; in_trace H;
      (split; [reflexivity |]; split; [eexists; reflexivity |]);
      simpl; intuition discriminate.
Qed.

(** [CreateProduct("Widget", 9.99, 5)] on the empty store, the commit
    raising: the session numbered 0 is left open. *)
Lemma C2_soap_store_error_leaves_session_open_witness :
  result (part2.CreateProduct (Some widget) f9_99 5 commit_fails empty_world)
  = Return (lit "Error: connection lost") /\
  (exists x,
      live (after (part2.CreateProduct (Some widget) f9_99 5 commit_fails
                     empty_world))
      = [(0%nat, x)]) /\
  ~ In (Close 0)
       (trace (part2.CreateProduct (Some widget) f9_99 5 commit_fails
                 empty_world)).
Proof.
  apply (C2_soap_store_error_leaves_session_open (fun _ => [])
           (CreateProduct_ (Some widget) f9_99 5) commit_fails empty_world
           CCommit connection_lost).
  vm_compute. tauto.
Defined.

(** ** Store errors *)

(** C3, counterexample: the SOAP [CreateProduct] answers a commit error with
    a returned string and no rollback; and in [tp1.create_product] an error
    raised by [session.refresh] comes after the commit, so the new row stays
    in the table although the call fails. *)
Lemma C3_store_error_without_rollback_or_with_row_kept :
  (part2.CreateProduct (Some widget) f9_99 5 commit_fails empty_world
   = (Return (lit "Error: connection lost"),
      mkWorld empty_db [(0%nat, New (Some widget) f9_99 5)] 1,
      [Open 0; Commit 0; Failed CCommit connection_lost])) /\
  (tp1.create_product (Some widget) f9_99 5 refresh_fails empty_world
   = (Raise (tp1.database_error connection_lost),
      mkWorld (mkDb [mkProduct 1 widget f9_99 5] 2) [] 1,
      [Open 0; Commit 0; Refresh 0; Failed CRefresh connection_lost;
       Rollback 0; Close 0])).
Proof. split; reflexivity. Qed.

(** C3, as amended: in [tp1.py], whenever a store call of [create_product],
    [update_product] or [delete_product] raises, the operation rolls the
    session back, closes it and raises [Exception] with the message
    "Database error: " followed by the cause; when the error is raised by the
    query or by the commit, the stored rows are exactly those of before the
    call. *)
Theorem C3_tp1_store_error_rolls_back (f : Faults) (w : World) :
  (forall n p q, rolls_back (tp1.create_product n p q) f w) /\
  (forall pid n p q, rolls_back (tp1.update_product pid n p q) f w) /\
  (forall pid, rolls_back (tp1.delete_product pid) f w).
Proof.
  unfold rolls_back. split; [| split]; intros.
  - revert c cause H. unfold tp1.create_product, bind.
    destruct (tp1_validate_product_cases n p q f w) as [-> | [m ->]];
      [| intros c cause H; in_trace H].
    exec; intros c cause H; in_trace H;
      (repeat split; intros; try reflexivity; try (simpl; tauto); congruence).
  - revert c cause H. unfold tp1.update_product, bind.
    destruct (tp1_validate_product_cases n p q f w) as [-> | [m ->]];
      [| intros c cause H; in_trace H].
    exec; intros c cause H; in_trace H;
      (repeat split; intros; try reflexivity; try (simpl; tauto); congruence).
  - revert c cause H. unfold tp1.delete_product.
    exec; intros c cause H; in_trace H;
      (repeat split; intros; try reflexivity; try (simpl; tauto); congruence).
Qed.

(** [update_product(1, "Widget", 12.5, 3)] with the commit raising: the call
    raises and the row is the one of before. *)
Lemma C3_tp1_store_error_rolls_back_witness :
  result (tp1.update_product 1 (Some widget) f12_5 3 commit_fails one_widget)
  = Raise (tp1.database_error connection_lost) /\
  rows (db (after (tp1.update_product 1 (Some widget) f12_5 3 commit_fails
                     one_widget)))
  = [mkProduct 1 widget f9_99 5].
Proof.
  destruct (proj1 (proj2 (C3_tp1_store_error_rolls_back commit_fails
                            one_widget))
              1 (Some widget) f12_5 3 CCommit connection_lost)
    as (Hr & _ & _ & Hrows).
  - vm_compute. tauto.
  - split; [exact Hr | apply Hrows; discriminate].
Defined.

(** ** Invariants of the table *)

Section Preservation.

Variable I : Db -> Prop.

(** The one place where the table is written is the flush of a commit. *)
Hypothesis flush_keeps :
  forall x d d' x', flush x d = Some (d', x') -> I d -> I d'.

Lemma preserves_ret {A} (a : A) : preserves I (ret a).
Proof. intros f w H. exact H. Qed.

Lemma preserves_raise {A} (e : exn) : preserves I (@raise A e).
Proof. intros f w H. exact H. Qed.

Lemma preserves_bind {A B} (m : M A) (k : A -> M B) :
  preserves I m -> (forall a, preserves I (k a)) -> preserves I (bind m k).
Proof.
  intros Hm Hk f w H. unfold bind, after.
  specialize (Hm f w H). unfold after in Hm.
  destruct (m f w) as [[[a | e] w1] t1]; simpl in *; [| exact Hm].
  specialize (Hk a f w1 Hm). unfold after in Hk.
  destruct (k a f w1) as [[r w2] t2]. exact Hk.
Qed.

Lemma preserves_try_except {A} (body : M A) handler :
  preserves I body ->
  (forall e h, handler e = Some h -> preserves I h) ->
  preserves I (try_except body handler).
Proof.
  intros Hb Hh f w H. unfold try_except, after.
  specialize (Hb f w H). unfold after in Hb.
  destruct (body f w) as [[[a | e] w1] t1]; simpl in *; [exact Hb |].
  destruct (handler e) as [h |] eqn:He; [| exact Hb].
  specialize (Hh e h He f w1 Hb). unfold after in Hh.
  destruct (h f w1) as [[r w2] t2]. exact Hh.
Qed.

Lemma preserves_try_finally {A} (body : M A) fin :
  preserves I body -> preserves I fin -> preserves I (try_finally body fin).
Proof.
  intros Hb Hf f w H. unfold try_finally, after.
  specialize (Hb f w H). unfold after in Hb.
  destruct (body f w) as [[r w1] t1]; simpl in *.
  specialize (Hf f w1 Hb). unfold after in Hf.
  destruct (fin f w1) as [[[u | e] w2] t2]; exact Hf.
Qed.

Lemma preserves_except_SQLAlchemyError {A} (h : pystr -> M A) e h' :
  (forall m, preserves I (h m)) ->
  except_SQLAlchemyError h e = Some h' -> preserves I h'.
Proof. destruct e; simpl; intros Hh E; inversion E; subst; apply Hh. Qed.

Lemma preserves_error_string e h' :
  part2.error_string e = Some h' -> preserves I h'.
Proof.
  destruct e; simpl; intros E; inversion E; subst; apply preserves_ret.
Qed.

Lemma preserves_returning {A B} (g : A -> B) (m : M A) :
  preserves I m -> preserves I (returning g m).
Proof.
  intros H. apply preserves_bind; [exact H | intros a; apply preserves_ret].
Qed.

(** The session calls that do not write the table. *)
Lemma preserves_emit e : preserves I (emit e).
Proof. intros f w H. exact H. Qed.

Lemma preserves_db_call c : preserves I (db_call c).
Proof. intros f w H. unfold db_call. destruct (fault c f); exact H. Qed.

Lemma preserves_db_error {A} c cause : preserves I (@db_error A c cause).
Proof. intros f w H. exact H. Qed.

Lemma preserves_get_db : preserves I get_db.
Proof. intros f w H. exact H. Qed.

Lemma preserves_get_work s : preserves I (get_work s).
Proof. intros f w H. exact H. Qed.

Lemma preserves_put_work s x : preserves I (put_work s x).
Proof. intros f w H. exact H. Qed.

Lemma preserves_SessionLocal : preserves I SessionLocal.
Proof. intros f w H. exact H. Qed.

Lemma preserves_session_close s : preserves I (session_close s).
Proof. intros f w H. exact H. Qed.

Lemma preserves_session_commit s : preserves I (session_commit s).
Proof.
  intros f w H.
  unfold session_commit, emit, db_call, get_work, get_db, put_db, put_work,
    db_error, bind, ret, raise, after.
  destruct (fault CCommit f); simpl; [exact H |].
  destruct (flush _ _) as [[d' x'] |] eqn:E; simpl; [| exact H].
  eapply flush_keeps; eauto.
Qed.

End Preservation.

Section Preservation_of_operations.

Variable I : Db -> Prop.

Hypothesis flush_keeps :
  forall x d d' x', flush x d = Some (d', x') -> I d -> I d'.

Ltac pres :=
  repeat first
    [ apply preserves_ret | apply preserves_raise | apply preserves_emit
    | apply preserves_db_call | apply preserves_db_error
    | apply preserves_get_db | apply preserves_get_work
    | apply preserves_put_work | apply preserves_SessionLocal
    | apply preserves_session_close
    | apply (preserves_session_commit I flush_keeps)
    | apply preserves_returning
    | apply preserves_bind; [| intros ?]
    | apply preserves_try_finally
    | apply preserves_try_except; [| intros ? ? ?]
    | eapply preserves_except_SQLAlchemyError; [intros ? | eassumption]
    | eapply preserves_error_string; eassumption
    | match goal with
      | |- preserves _ (match ?x with _ => _ end) => destruct x
      end ].

Ltac unfold_session :=
  unfold session_add, session_query_first, session_query_all, set_name,
    set_price, set_quantity, session_delete, session_refresh,
    session_rollback.

Lemma preserves_desktop c : preserves I (desktop c).
Proof.
  destruct c; unfold desktop, tp1.create_product, tp1.get_product,
    tp1.get_all_products, tp1.update_product, tp1.delete_product,
    tp1.validate_product; unfold_session; pres.
Qed.

Lemma preserves_soap str_float c : preserves I (soap str_float c).
Proof.
  destruct c; unfold soap, part2.CreateProduct, part2.GetProduct,
    part2.UpdateProduct, part2.DeleteProduct, part2.validate_product,
    part2.validate_id; unfold_session; pres.
Qed.

Lemma serve_keeps str_float r w :
  I (db w) -> I (db (serve str_float r w)).
Proof.
  destruct r as [c f | c f]; simpl.
  - apply preserves_desktop.
  - apply preserves_soap.
Qed.

Lemma serve_all_keeps str_float rs :
  forall w, I (db w) -> I (db (serve_all str_float rs w)).
Proof.
  unfold serve_all.
  induction rs as [| r rs IH]; simpl; intros w H; [exact H |].
  apply IH. apply serve_keeps. exact H.
Qed.

End Preservation_of_operations.

(** ** The length of a stored name *)

Lemma flush_keeps_names_fit x d d' x' :
  flush x d = Some (d', x') -> names_fit d -> names_fit d'.
Proof.
  unfold names_fit.
  destruct x as [| n p q | k n p q | k]; unfold flush.
  - intros [= <- _] H. exact H.
  - destruct (column_name n) as [n' |] eqn:E; [| discriminate].
    intros [= <- _] H r. simpl. rewrite in_app_iff. simpl.
    intros [Hr | [<- | []]]; [now apply H |].
    simpl. eapply column_name_length; eauto.
  - destruct (column_name n) as [n' |] eqn:E; [| discriminate].
    intros [= <- _] H r. simpl. rewrite in_map_iff.
    intros (r0 & <- & Hr0). unfold set_row.
    destruct (id r0 =? k); [| now apply H].
    simpl. eapply column_name_length; eauto.
  - intros [= <- _] H r. simpl. rewrite filter_In.
    intros [Hr _]. now apply H.
Qed.

(** C4: whatever requests the two front ends serve, in whatever order and
    whatever the backend does to them, a table whose names have at most 100
    characters keeps that property: no create or update stores a longer
    name, the [String(100)] column refusing it. *)
Theorem C4_stored_name_at_most_100
    (str_float : float -> pystr) (rs : list Request) (w : World) (p : Product)
    (Hbefore : names_fit (db w))
    (Hstored : In p (rows (db (serve_all str_float rs w)))) :
  (List.length (name p) <= 100)%nat.
Proof.
  exact (serve_all_keeps names_fit flush_keeps_names_fit str_float rs w
           Hbefore p Hstored).
Qed.

(** A create, then an update and a SOAP create with a name of 101
    characters: the one stored row is the first. *)
Lemma C4_stored_name_at_most_100_witness :
  (List.length (name (mkProduct 1 widget f9_99 5)) <= 100)%nat.
Proof.
  apply (C4_stored_name_at_most_100 (fun _ => [])
           [Desktop (create_product_ (Some widget) f9_99 5) no_faults;
            Desktop (update_product_ 1 (Some long_name) f12_5 3) no_faults;
            Soap (CreateProduct_ (Some long_name) f12_5 3) no_faults]
           empty_world).
  - intros r H. destruct H.
  - vm_compute. left. reflexivity.
Defined.

(** ** The domain constraints of a stored product *)

Ltac new_row_ok :=
  split;
  [ let s := fresh "s" in
    let Hs := fresh "Hs" in
    match goal with
    | H : not_ ?n || strip_is_empty ?n = false |- _ =>
        apply name_test in H as (s & -> & Hs)
    end;
    match goal with
    | H : column_name (Some _) = Some _ |- _ =>
        exact (column_name_keeps_name _ _ H Hs)
    end
  | split; [assumption | apply Z.ltb_ge; assumption] ].

Ltac rows_done :=
  intros Hinv r Hin; cbn [rows db] in Hin;
  first
    [ exact (Hinv r Hin)
    | apply filter_In in Hin as [Hin _]; exact (Hinv r Hin)
    | apply in_app_iff in Hin as [Hin | [<- | []]];
      [exact (Hinv r Hin) | new_row_ok]
    | apply in_map_iff in Hin as (r0 & <- & Hin); unfold set_row;
      destruct (id r0 =? _); [new_row_ok | exact (Hinv r0 Hin)] ].

(** Every request to either front end keeps the rows acceptable: the name
    and quantity constraints of the data model hold of every stored row, and
    its price is not below zero. *)
Lemma serve_keeps_acceptable str_float r w :
  rows_acceptable (db w) -> rows_acceptable (db (serve str_float r w)).
Proof.
  destruct r as [c f | c f]; destruct c; unfold serve, desktop, soap, returning,
    tp1.create_product, tp1.get_product, tp1.get_all_products,
    tp1.update_product, tp1.delete_product, tp1.validate_product,
    part2.CreateProduct, part2.GetProduct, part2.UpdateProduct,
    part2.DeleteProduct, part2.validate_product, part2.validate_id,
    part2.error_string, rows_acceptable;
    exec; rows_done.
Qed.

Lemma serve_all_keeps_acceptable str_float rs :
  forall w,
    rows_acceptable (db w) ->
    rows_acceptable (db (serve_all str_float rs w)).
Proof.
  unfold serve_all.
  induction rs as [| r rs IH]; simpl; intros w H; [exact H |].
  apply IH. now apply serve_keeps_acceptable.
Qed.

(** So a stored row breaks the invariant of the data model only by a price
    that is NaN. *)
Lemma acceptable_well_formed_or_nan r :
  acceptable r -> well_formed r \/ price r = nan.
Proof.
  intros (Hn & Hp & Hq).
  destruct (not_below_zero _ Hp) as [H | H]; [left | right; exact H].
  repeat split; assumption.
Qed.


(** C5: [validate_product] tests [price < 0], which is false for NaN.  So
    for every name that is not blank and fits the column and every quantity
    that is not negative, a create with the price NaN passes validation,
    returns, and appends to the table a row whose price is NaN, which is not
    at least 0: the stored row breaks the invariant of the data model. *)
Theorem C5_nan_price_is_stored
    (s : pystr) (q : Z) (w : World)
    (Hname : strip s <> [])
    (Hfits : (List.length s <= 100)%nat)
    (Hq : 0 <= q) :
  let r := mkProduct (next_id (db w)) s nan q in
  accepts (tp1.validate_product (Some s) nan q) /\
  (exists p, result (tp1.create_product (Some s) nan q no_faults w) = Return p) /\
  rows (db (after (tp1.create_product (Some s) nan q no_faults w)))
  = rows (db w) ++ [r] /\
  float_geb0 (price r) = false /\
  ~ well_formed r.
Proof.
  intros r.
  assert (Hv : accepts (tp1.validate_product (Some s) nan q)).
  { apply tp1_validate_product_accepts. repeat split; eauto. }
  split; [exact Hv |].
  assert (Hfind : exists p,
             find_by_id (next_id (db w)) (rows (db w) ++ [r]) = Some p).
  { destruct (find_by_id _ _) as [p |] eqn:E; [eauto |].
    exfalso. revert E. apply find_by_id_last. reflexivity. }
  destruct Hfind as [p Hfind].
  assert (Hrun :
    tp1.create_product (Some s) nan q no_faults w
    = (Return p,
       mkWorld (mkDb (rows (db w) ++ [r]) (next_id (db w) + 1))
               (live w) (S (next_sid w)),
       [Open (next_sid w); Commit (next_sid w); Refresh (next_sid w);
        Close (next_sid w)])).
  { unfold tp1.create_product, bind, no_faults. rewrite Hv.
    unfold_api. step. rewrite (column_name_short s Hfits). step.
    fold r. rewrite Hfind. step. reflexivity. }
  rewrite Hrun. simpl.
  split; [eexists; reflexivity |].
  split; [reflexivity |]. split; [reflexivity |].
  intros (_ & H & _). discriminate H.
Qed.

(** [create_product("Widget", float("nan"), 5)] on the empty store. *)
Lemma C5_nan_price_is_stored_witness :
  rows (db (after (tp1.create_product (Some widget) nan 5 no_faults
                     empty_world)))
  = [mkProduct 1 widget nan 5] /\
  ~ well_formed (mkProduct 1 widget nan 5).
Proof.
  destruct (C5_nan_price_is_stored widget 5 empty_world)
    as (_ & _ & Hrows & _ & Hbad).
  - intros H. discriminate H.
  - apply Nat.leb_le. reflexivity.
  - lia.
  - split; [exact Hrows | exact Hbad].
Defined.

(** ** Update *)




(** ** Create, then read *)



(** ** Delete of an identifier that is not there *)

Lemma delete_product_absent pid f w :
  on_query f = None ->
  find_by_id pid (rows (db w)) = None ->
  tp1.delete_product pid f w
  = (Return false, mkWorld (db w) (live w) (S (next_sid w)),
     [Open (next_sid w); Query (next_sid w); Close (next_sid w)]).
Proof.
  intros Hq Hfind. unfold tp1.delete_product.
  unfold_api. step. rewrite Hq. step. rewrite Hfind. step. reflexivity.
Qed.

Lemma DeleteProduct_absent pid f w :
  0 < pid ->
  on_query f = None ->
  find_by_id pid (rows (db w)) = None ->
  part2.DeleteProduct pid f w
  = (Return (lit "Product not found"),
     mkWorld (db w) (live w) (S (next_sid w)),
     [Open (next_sid w); Query (next_sid w); Close (next_sid w)]).
Proof.
  intros Hpos Hq Hfind.
  unfold part2.DeleteProduct, part2.error_string, try_except, bind.
  destruct (part2_validate_id_cases pid f w) as [[_ ->] | [? _]]; [| lia].
  unfold_api. step. rewrite Hq. step. rewrite Hfind. step. reflexivity.
Qed.

(** C8: a delete of an identifier that no row has, the query raising no
    error, returns [False] in [tp1.py] and "Product not found" in the SOAP
    service (for a positive identifier) and never raises; repeated any
    number of times it gives the same answer every time, and the database is
    unchanged. *)
Theorem C8_delete_absent_is_idempotent
    (pid : Z) (fs : list Faults) (w : World)
    (Hquery : Forall (fun f => on_query f = None) fs)
    (Habsent : find_by_id pid (rows (db w)) = None) :
  (fst (run_all (map (fun f => (tp1.delete_product pid, f)) fs) w)
   = map (fun _ => Return false) fs /\
   db (snd (run_all (map (fun f => (tp1.delete_product pid, f)) fs) w))
   = db w) /\
  (0 < pid ->
   fst (run_all (map (fun f => (part2.DeleteProduct pid, f)) fs) w)
   = map (fun _ => Return (lit "Product not found")) fs /\
   db (snd (run_all (map (fun f => (part2.DeleteProduct pid, f)) fs) w))
   = db w).
Proof.
  revert w Habsent.
  induction Hquery as [| f fs Hf Hfs IH]; intros w Habsent.
  - simpl. auto.
  - split; [| intros Hpos]; simpl.
    + rewrite (delete_product_absent pid f w Hf Habsent).
      destruct (IH (mkWorld (db w) (live w) (S (next_sid w))) Habsent)
        as [[Hr Hd] _].
      destruct (run_all _ _) as [rs w2]. simpl in *.
      split; congruence.
    + rewrite (DeleteProduct_absent pid f w Hpos Hf Habsent).
      destruct (IH (mkWorld (db w) (live w) (S (next_sid w))) Habsent)
        as [_ H]. destruct (H Hpos) as [Hr Hd].
      destruct (run_all _ _) as [rs w2]. simpl in *.
      split; congruence.
Qed.

(** Three deletes of the identifier 7, which the store does not hold. *)
Lemma C8_delete_absent_is_idempotent_witness :
  fst (run_all (map (fun f => (tp1.delete_product 7, f))
                    [no_faults; commit_fails; no_faults]) one_widget)
  = [Return false; Return false; Return false].
Proof.
  refine (proj1 (proj1 (C8_delete_absent_is_idempotent 7
            [no_faults; commit_fails; no_faults] one_widget _ _))).
  - repeat constructor.
  - reflexivity.
Defined.

(** ** Listing and counting *)

Lemma NoDup_snoc {A} (l : list A) (x : A) :
  NoDup l -> ~ In x l -> NoDup (l ++ [x]).
Proof.
  induction l as [| a l IH]; simpl; intros Hl Hx.
  - constructor; [intros [] | constructor].
  - inversion Hl as [| ? ? Ha Hl']; subst. constructor.
    + rewrite in_app_iff. simpl. intros [H | [H | []]]; [tauto |].
      apply Hx. now left.
    + apply IH; tauto.
Qed.

Lemma ids_filter (g : Product -> bool) l :
  NoDup (map id l) -> NoDup (map id (filter g l)).
Proof.
  induction l as [| a l IH]; simpl; intros H; [constructor |].
  inversion H as [| ? ? Ha Hl]; subst.
  destruct (g a); simpl; [| now apply IH].
  constructor; [| now apply IH].
  intros Hin. apply Ha. apply in_map_iff in Hin as (r & Hr & Hin).
  apply filter_In in Hin as [Hin _]. apply in_map_iff. eauto.
Qed.

Lemma ids_set_row k n p q l : map id (map (set_row k n p q) l) = map id l.
Proof.
  rewrite map_map. apply map_ext. intros a. unfold set_row.
  now destruct (id a =? k).
Qed.

Lemma flush_keeps_wf_db x d d' x' :
  flush x d = Some (d', x') -> wf_db d -> wf_db d'.
Proof.
  unfold wf_db.
  destruct x as [| n p q | k n p q | k]; unfold flush.
  - intros [= <- _] H. exact H.
  - destruct (column_name n) as [n' |]; [| discriminate].
    intros [= <- _] [Hnd Hlt]. simpl. split.
    + rewrite map_app. simpl. apply NoDup_snoc; [exact Hnd |].
      intros Hin. apply in_map_iff in Hin as (r & Hr & Hin).
      apply Hlt in Hin. lia.
    + intros r. rewrite in_app_iff. simpl.
      intros [Hr | [<- | []]]; [apply Hlt in Hr; lia | simpl; lia].
  - destruct (column_name n) as [n' |]; [| discriminate].
    intros [= <- _] [Hnd Hlt]. simpl. split.
    + now rewrite ids_set_row.
    + intros r Hin. apply in_map_iff in Hin as (r0 & <- & Hin).
      apply Hlt in Hin. unfold set_row. now destruct (id r0 =? k).
  - intros [= <- _] [Hnd Hlt]. simpl. split.
    + now apply ids_filter.
    + intros r Hin. apply filter_In in Hin as [Hin _]. now apply Hlt.
Qed.

Lemma filter_absent k l :
  ~ In k (map id l) -> filter (fun r => negb (id r =? k)) l = l.
Proof.
  induction l as [| a l IH]; simpl; intros H; [reflexivity |].
  destruct (Z.eqb_spec (id a) k) as [E | E]; simpl.
  - exfalso. apply H. now left.
  - f_equal. apply IH. tauto.
Qed.

(** Under the primary key, [DELETE ... WHERE id = k] removes one row when a
    row has that identifier. *)
Lemma filter_present k l r :
  NoDup (map id l) ->
  find_by_id k l = Some r ->
  S (List.length (filter (fun r => negb (id r =? k)) l)) = List.length l.
Proof.
  unfold find_by_id.
  induction l as [| a l IH]; simpl; intros Hnd Hfind; [discriminate |].
  inversion Hnd as [| ? ? Ha Hl]; subst.
  destruct (Z.eqb_spec (id a) k) as [E | E]; simpl.
  - subst k. now rewrite filter_absent.
  - f_equal. now apply IH.
Qed.

Lemma get_all_products_lists f w :
  on_query f = None ->
  tp1.get_all_products f w
  = (Return (rows (db w)), mkWorld (db w) (live w) (S (next_sid w)),
     [Open (next_sid w); Query (next_sid w); Close (next_sid w)]).
Proof.
  intros Hq. unfold tp1.get_all_products.
  unfold_api. step. rewrite Hq. step. reflexivity.
Qed.

Lemma desktop_count c f w :
  wf_db (db w) ->
  ~ store_error (result (desktop c f w)) ->
  (List.length (rows (db (after (desktop c f w))))
   + deleted c (result (desktop c f w))
   = List.length (rows (db w)) + created c (result (desktop c f w)))%nat.
Proof.
  intros [Hnd _].
  destruct c as [n p q | k | | k n p q | k];
    unfold desktop, returning, tp1.create_product, tp1.get_product,
      tp1.get_all_products, tp1.update_product, tp1.delete_product, bind;
    try (destruct (tp1_validate_product_cases n p q f w) as [-> | [m ->]]);
    exec; intros Hok; simpl;
    try (exfalso; apply Hok; eexists; reflexivity);
    rewrite ?length_app, ?length_map; simpl; try lia.
  match goal with
  | H : find_by_id _ _ = Some _ |- _ =>
      rewrite (find_by_id_id _ _ _ H);
      pose proof (filter_present _ _ _ Hnd H)
  end.
  lia.
Qed.

Lemma desktop_run_count cs :
  forall w,
    wf_db (db w) ->
    Forall (fun r => ~ store_error r) (fst (desktop_run cs w)) ->
    (List.length (rows (db (snd (desktop_run cs w))))
     + total deleted cs (fst (desktop_run cs w))
     = List.length (rows (db w))
       + total created cs (fst (desktop_run cs w)))%nat.
Proof.
  unfold desktop_run.
  induction cs as [| [c f] cs IH]; intros w Hwf Hok; [reflexivity |].
  simpl in *.
  pose proof (desktop_count c f w Hwf) as Hc.
  pose proof (preserves_desktop wf_db flush_keeps_wf_db c f w Hwf) as Hwf1.
  unfold result, after in Hc, Hwf1.
  destruct (desktop c f w) as [[r w1] t]. simpl in Hc, Hwf1.
  specialize (IH w1 Hwf1).
  destruct (run_all _ w1) as [rs w2]. simpl in *.
  inversion Hok as [| ? ? Hr Hrs]; subst.
  specialize (IH Hrs). specialize (Hc Hr). lia.
Qed.

(** C9: listing an empty store returns the empty list; and after any run of
    calls of [tp1.py] on a store that respects its primary key, none of which
    ended in a store error, the list holds N - M more records than the store
    held at the start, N being the creates that returned a record and M the
    deletes that returned [True]; the list returned is the stored rows, all
    of them. *)
Theorem C9_list_after_creates_and_deletes
    (cs : list (DesktopCall * Faults)) (w : World) (f : Faults)
    (Hwf : wf_db (db w))
    (Hok : Forall (fun r => ~ store_error r) (fst (desktop_run cs w)))
    (Hquery : on_query f = None) :
  let rs := fst (desktop_run cs w) in
  let w' := snd (desktop_run cs w) in
  result (tp1.get_all_products f empty_world) = Return [] /\
  result (tp1.get_all_products f w) = Return (rows (db w)) /\
  result (tp1.get_all_products f w') = Return (rows (db w')) /\
  (List.length (rows (db w')) + total deleted cs rs
   = List.length (rows (db w)) + total created cs rs)%nat.
Proof.
  intros rs w'. subst rs w'.
  rewrite !(get_all_products_lists f _ Hquery).
  repeat split. now apply desktop_run_count.
Qed.

(** The sample run from the empty store: two creates and one delete
    succeed, and the list holds the one remaining record. *)
Lemma C9_list_after_creates_and_deletes_witness :
  result (tp1.get_all_products no_faults
            (snd (desktop_run sample_calls empty_world)))
  = Return [mkProduct 2 gadget f9_99 7] /\
  total created sample_calls (fst (desktop_run sample_calls empty_world))
  = 2%nat /\
  total deleted sample_calls (fst (desktop_run sample_calls empty_world))
  = 1%nat.
Proof.
  destruct (C9_list_after_creates_and_deletes sample_calls empty_world
              no_faults) as (_ & _ & Hlist & _).
  - split; [constructor | intros r []].
  - vm_compute. repeat constructor; intros [m H]; discriminate H.
  - reflexivity.
  - split; [exact Hlist | split; reflexivity].
Defined.

(** ** The SOAP service never lets an error out *)




(** *** Arguments that the request leaves out *)



(** Validation lets through only numbers that are there. *)
Lemma validate_product_passes n p q f w w' t :
  ProductService.validate_product n p q f w = (Return tt, w', t) ->
  (exists x, p = Some x) /\ (exists y, q = Some y).
Proof.
  unfold ProductService.validate_product, ProductService.float_lt0,
    ProductService.int_lt0, bind, ret, raise.
  destruct (not_ n || strip_is_empty n); [discriminate |].
  destruct p as [x |]; [| discriminate].
  destruct (float_ltb0 x); [discriminate |].
  destruct q as [y |]; [| discriminate].
  intros _. split; eexists; reflexivity.
Qed.

Lemma validate_id_passes k f w w' t :
  ProductService.validate_id k f w = (Return tt, w', t) ->
  exists x, k = Some x.
Proof.
  unfold ProductService.validate_id, ProductService.int_le0, bind, ret, raise.
  destruct k as [x |]; [| discriminate].
  intros _. eexists; reflexivity.
Qed.





(** ** The two copies of validate_product *)

(** The checks of [validate_product] in both files, as one decision. *)
Lemma validate_product_both n p q :
  (accepts (tp1.validate_product n p q) /\
   accepts (part2.validate_product n p q)) \/
  exists m,
    (forall f w,
        part2.validate_product n p q f w = (Raise (ValueError m), w, [])) /\
    (forall f w,
        tp1.validate_product n p q f w
        = (Raise (ValueError (tp1.cross ++ lit " " ++ m)), w, [])).
Proof.
  unfold accepts, tp1.validate_product, part2.validate_product, bind, ret,
    raise.
  destruct (not_ n || strip_is_empty n);
    [right; eexists; split; intros; reflexivity |].
  destruct (float_ltb0 p);
    [right; eexists; split; intros; reflexivity |].
  destruct (q <? 0);
    [right; eexists; split; intros; reflexivity |].
  left. split; intros; reflexivity.
Qed.

(** The two files apply the same rules: [validate_product] of [tp1.py]
    accepts exactly what [validate_product] of [part2.py] accepts, and where
    they refuse they raise the same message, which [tp1.py] opens with its
    cross mark and a space. *)
Theorem validate_product_same_in_both_files n p q :
  (accepts (tp1.validate_product n p q) <->
   accepts (part2.validate_product n p q)) /\
  (forall m,
      (forall f w,
          part2.validate_product n p q f w = (Raise (ValueError m), w, []))
      <->
      (forall f w,
          tp1.validate_product n p q f w
          = (Raise (ValueError (tp1.cross ++ lit " " ++ m)), w, []))).
Proof.
  destruct (validate_product_both n p q) as [[H1 H2] | (m0 & H2 & H1)].
  - split; [tauto |].
    intros m. split; intros H;
      specialize (H no_faults empty_world);
      [rewrite H2 in H | rewrite H1 in H]; discriminate H.
  - split.
    + split; intros H; specialize (H no_faults empty_world);
        [rewrite H1 in H | rewrite H2 in H]; discriminate H.
    + intros m. split; intros H.
      * pose proof (H no_faults empty_world) as E. rewrite H2 in E.
        injection E as <-. exact H1.
      * pose proof (H no_faults empty_world) as E. rewrite H1 in E.
        injection E as <-. exact H2.
Qed.

(** The name is checked first: [validate_product] raises "Name cannot be
    empty" exactly when the name is blank, whatever the price and the
    quantity are. *)
Theorem blank_name_is_refused_first n p q :
  blank n <->
  forall f w,
    part2.validate_product n p q f w
    = (Raise (ValueError (lit "Name cannot be empty")), w, []).
Proof.
  assert (Hb : blank n <-> not_ n || strip_is_empty n = true).
  { destruct n as [s |]; simpl; [| tauto].
    rewrite <- strip_nil. split.
    - intros ->. apply orb_true_r.
    - intros H. apply orb_true_iff in H as [H | H].
      + destruct s; [reflexivity | discriminate H].
      + destruct (strip s); [reflexivity | discriminate H]. }
  rewrite Hb. unfold part2.validate_product, bind, ret, raise.
  destruct (not_ n || strip_is_empty n).
  - split; [intros _ f w; reflexivity | reflexivity].
  - split; [discriminate | intros H].
    specialize (H no_faults empty_world).
    destruct (float_ltb0 p); [discriminate H |].
    destruct (q <? 0); discriminate H.
Qed.

(** ** Input that validation refuses *)

(** An input that [validate_product] refuses never reaches the store: the
    create and update functions of [tp1.py] raise the [ValueError], the SOAP
    [CreateProduct] and [UpdateProduct] (for a positive identifier) return
    it as an error string, and in all four the world is untouched and no
    store event happens.  For an update this holds whether or not a row has
    the identifier: the values are checked before the lookup. *)
Theorem refused_input_never_reaches_store
    (n : option pystr) (p : float) (q : Z) (pid : Z) (f : Faults) (w : World)
    (Hrefused : ~ accepts (part2.validate_product n p q)) :
  exists m,
    tp1.create_product n p q f w
    = (Raise (ValueError (tp1.cross ++ lit " " ++ m)), w, []) /\
    tp1.update_product pid n p q f w
    = (Raise (ValueError (tp1.cross ++ lit " " ++ m)), w, []) /\
    part2.CreateProduct n p q f w = (Return (lit "Error: " ++ m), w, []) /\
    (0 < pid ->
     part2.UpdateProduct pid n p q f w = (Return (lit "Error: " ++ m), w, [])).
Proof.
  destruct (validate_product_both n p q) as [[_ H2] | (m & H2 & H1)];
    [contradiction |].
  exists m.
  unfold tp1.create_product, tp1.update_product, part2.CreateProduct,
    part2.UpdateProduct, part2.error_string, try_except, bind.
  rewrite H1, H2. repeat split; try reflexivity.
  intros Hpos.
  destruct (part2_validate_id_cases pid f w) as [[_ ->] | [? _]]; [| lia].
  rewrite H2. reflexivity.
Qed.

(** [create_product("   ", 9.99, 5)] on the store that holds product 1. *)
Lemma refused_input_never_reaches_store_witness :
  exists m,
    tp1.create_product (Some (lit "   ")) f9_99 5 no_faults one_widget
    = (Raise (ValueError (tp1.cross ++ lit " " ++ m)), one_widget, []) /\
    tp1.update_product 1 (Some (lit "   ")) f9_99 5 no_faults one_widget
    = (Raise (ValueError (tp1.cross ++ lit " " ++ m)), one_widget, []) /\
    part2.CreateProduct (Some (lit "   ")) f9_99 5 no_faults one_widget
    = (Return (lit "Error: " ++ m), one_widget, []) /\
    (0 < 1 ->
     part2.UpdateProduct 1 (Some (lit "   ")) f9_99 5 no_faults one_widget
     = (Return (lit "Error: " ++ m), one_widget, [])).
Proof.
  apply (refused_input_never_reaches_store (Some (lit "   ")) f9_99 5 1
           no_faults one_widget).
  intros H. discriminate (H no_faults empty_world).
Defined.

(** ** Create on a valid input, in both front ends *)



(** ** Reads *)

(** The reads never write: [get_product] and [get_all_products] of [tp1.py]
    and [GetProduct] of the SOAP service leave the database exactly as it
    was, for every identifier and whatever the store does to the query. *)
Theorem reads_leave_the_database_unchanged
    (str_float : float -> pystr) (pid : Z) (f : Faults) (w : World) :
  db (after (tp1.get_product pid f w)) = db w /\
  db (after (tp1.get_all_products f w)) = db w /\
  db (after (part2.GetProduct str_float pid f w)) = db w.
Proof.
  split; [| split].
  - unfold tp1.get_product. exec; reflexivity.
  - unfold tp1.get_all_products. exec; reflexivity.
  - unfold part2.GetProduct, part2.error_string, try_except, bind.
    destruct (part2_validate_id_cases pid f w) as [[_ ->] | [_ ->]];
      [| reflexivity].
    exec; reflexivity.
Qed.

(** A read whose query raises: [get_product] and [get_all_products] close
    their session, call no rollback, and raise [Exception] with the message
    "Database error: " followed by the cause. *)
Theorem failed_read_raises_database_error
    (pid : Z) (f : Faults) (w : World) (cause : pystr)
    (Hquery : on_query f = Some cause) :
  let sid := next_sid w in
  tp1.get_product pid f w
  = (Raise (tp1.database_error cause),
     mkWorld (db w) (live w) (S sid),
     [Open sid; Query sid; Failed CQuery cause; Close sid]) /\
  tp1.get_all_products f w
  = (Raise (tp1.database_error cause),
     mkWorld (db w) (live w) (S sid),
     [Open sid; Query sid; Failed CQuery cause; Close sid]).
Proof.
  intros sid. subst sid. split.
  - unfold tp1.get_product. unfold_api. step. rewrite Hquery. step.
    reflexivity.
  - unfold tp1.get_all_products. unfold_api. step. rewrite Hquery. step.
    reflexivity.
Qed.

(** [get_product(1)] with the connection lost. *)
Lemma failed_read_raises_database_error_witness :
  tp1.get_product 1 query_fails one_widget
  = (Raise (tp1.database_error connection_lost),
     mkWorld (db one_widget) [] 1,
     [Open 0; Query 0; Failed CQuery connection_lost; Close 0]).
Proof.
  exact (proj1 (failed_read_raises_database_error 1 query_fails one_widget
                  connection_lost eq_refl)).
Defined.

(** [GetProduct] of the SOAP service shows what [get_product] of [tp1.py]
    finds: for a positive identifier and a query that raises no error, it
    returns "Product not found" when [get_product] returns [None], and the
    line of the record when [get_product] returns one. *)
Theorem GetProduct_shows_what_get_product_finds
    (str_float : float -> pystr) (pid : Z) (f : Faults) (w : World)
    (Hpid : 0 < pid) (Hquery : on_query f = None) :
  exists found,
    result (tp1.get_product pid f w) = Return found /\
    result (part2.GetProduct str_float pid f w)
    = Return
        match found with
        | None => lit "Product not found"
        | Some p =>
            lit "ID=" ++ str_int (id p) ++ lit ", Name=" ++ name p
            ++ lit ", Price=" ++ str_float (price p)
            ++ lit ", Quantity=" ++ str_int (quantity p)
        end.
Proof.
  exists (find_by_id pid (rows (db w))).
  unfold tp1.get_product, part2.GetProduct, part2.error_string, try_except,
    bind.
  destruct (part2_validate_id_cases pid f w) as [[_ ->] | [? _]]; [| lia].
  unfold_api. step. rewrite Hquery. step.
  destruct (find_by_id pid (rows (db w))); step; split; reflexivity.
Qed.

(** [GetProduct(1)] on the store that holds product 1. *)
Lemma GetProduct_shows_what_get_product_finds_witness :
  exists found,
    result (tp1.get_product 1 no_faults one_widget) = Return found /\
    result (part2.GetProduct (fun _ => lit "9.99") 1 no_faults one_widget)
    = Return
        match found with
        | None => lit "Product not found"
        | Some p =>
            lit "ID=" ++ str_int (id p) ++ lit ", Name=" ++ name p
            ++ lit ", Price=" ++ (fun _ => lit "9.99") (price p)
            ++ lit ", Quantity=" ++ str_int (quantity p)
        end.
Proof.
  apply (GetProduct_shows_what_get_product_finds (fun _ => lit "9.99") 1
           no_faults one_widget); [lia | reflexivity].
Defined.

(** ** What an update and a delete leave alone *)

(** An update never inserts, deletes or renumbers a row: whatever the
    values, the identifier and the store errors, after [update_product] of
    [tp1.py] or [UpdateProduct] of the SOAP service the table holds the
    identifiers it held, each as many times, in whatever order the store
    lists them, and the serial is where it was. *)
Theorem update_keeps_every_identifier
    (pid : Z) (n : option pystr) (p : float) (q : Z) (f : Faults) (w : World) :
  (Permutation (map id (rows (db (after (tp1.update_product pid n p q f w)))))
               (map id (rows (db w))) /\
   next_id (db (after (tp1.update_product pid n p q f w))) = next_id (db w)) /\
  (Permutation
     (map id (rows (db (after (part2.UpdateProduct pid n p q f w)))))
     (map id (rows (db w))) /\
   next_id (db (after (part2.UpdateProduct pid n p q f w))) = next_id (db w)).
Proof.
  split.
  - unfold tp1.update_product, bind.
    destruct (tp1_validate_product_cases n p q f w) as [-> | [m ->]];
      [| split; reflexivity].
    exec; rewrite ?ids_set_row; split; reflexivity.
  - unfold part2.UpdateProduct, part2.error_string, try_except, bind.
    destruct (part2_validate_id_cases pid f w) as [[_ ->] | [_ ->]];
      [| split; reflexivity].
    destruct (part2_validate_product_cases n p q f w) as [-> | [m ->]];
      [| split; reflexivity].
    exec; rewrite ?ids_set_row; split; reflexivity.
Qed.

Lemma find_by_id_deleted k l :
  find_by_id k (filter (fun r => negb (id r =? k)) l) = None.
Proof.
  unfold find_by_id.
  induction l as [| a l IH]; simpl; [reflexivity |].
  destruct (id a =? k) eqn:E; simpl; [exact IH |].
  rewrite E. exact IH.
Qed.

(** Delete of a row that is there, the store raising no error:
    [delete_product] returns [True] and removes the rows of that identifier,
    leaving every other row as it was; a read of the identifier then returns
    [None], and a second delete returns [False]. *)
Theorem delete_then_read_finds_nothing
    (pid : Z) (r : Product) (f f1 f2 : Faults) (w : World)
    (Hfound : find_by_id pid (rows (db w)) = Some r)
    (Hquery : on_query f = None) (Hcommit : on_commit f = None)
    (Hquery1 : on_query f1 = None) (Hquery2 : on_query f2 = None) :
  let w1 := after (tp1.delete_product pid f w) in
  result (tp1.delete_product pid f w) = Return true /\
  rows (db w1) = filter (fun x => negb (id x =? pid)) (rows (db w)) /\
  live w1 = live w /\
  result (tp1.get_product pid f1 w1) = Return None /\
  result (tp1.delete_product pid f2 w1) = Return false.
Proof.
  intros w1. subst w1.
  assert (Hrun :
    tp1.delete_product pid f w
    = (Return true,
       mkWorld (mkDb (filter (fun x => negb (id x =? pid)) (rows (db w)))
                     (next_id (db w)))
               (live w) (S (next_sid w)),
       [Open (next_sid w); Query (next_sid w); Commit (next_sid w);
        Close (next_sid w)])).
  { unfold tp1.delete_product. unfold_api. step. rewrite Hquery. step.
    rewrite Hfound. step. rewrite Hcommit. step.
    rewrite (find_by_id_id _ _ _ Hfound). reflexivity. }
  rewrite Hrun. simpl.
  split; [reflexivity |]. split; [reflexivity |]. split; [reflexivity |].
  split.
  - unfold tp1.get_product. unfold_api. step. rewrite Hquery1. step.
    rewrite find_by_id_deleted. reflexivity.
  - rewrite delete_product_absent;
      [reflexivity | exact Hquery2 | apply find_by_id_deleted].
Qed.

(** [delete_product(1)] on the store that holds product 1 and product 2. *)
Lemma delete_then_read_finds_nothing_witness :
  let w := mkWorld (mkDb [mkProduct 1 widget f9_99 5;
                          mkProduct 2 gadget f12_5 3] 3) [] 0 in
  result (tp1.delete_product 1 no_faults w) = Return true /\
  rows (db (after (tp1.delete_product 1 no_faults w)))
  = [mkProduct 2 gadget f12_5 3] /\
  result (tp1.get_product 1 no_faults
            (after (tp1.delete_product 1 no_faults w)))
  = Return None.
Proof.
  destruct (delete_then_read_finds_nothing 1 (mkProduct 1 widget f9_99 5)
              no_faults no_faults no_faults
              (mkWorld (mkDb [mkProduct 1 widget f9_99 5;
                              mkProduct 2 gadget f12_5 3] 3) [] 0)
              eq_refl eq_refl eq_refl eq_refl eq_refl)
    as (H1 & H2 & _ & H4 & _).
  split; [exact H1 |]. split; [exact H2 | exact H4].
Defined.

(** Update, then read.  When a row has the identifier, the values pass
    [validate_product] and are of those the backend keeps as given, and the
    store raises no error, [update_product] returns the record with that
    identifier and the name, price and quantity given.  And whenever
    [update_product] returns a record, whatever the values, the record has
    the identifier asked for, no session is left open, and a read of the
    identifier straight after (the query raising no error) returns that
    very record. *)
Theorem update_then_read
    (pid : Z) (s : pystr) (p : float) (q : Z) (f' : Faults) (w : World)
    (Hquery : on_query f' = None) :
  (forall r,
      find_by_id pid (rows (db w)) = Some r ->
      accepts (tp1.validate_product (Some s) p q) ->
      kept_as_given s p q ->
      result (tp1.update_product pid (Some s) p q no_faults w)
      = Return (Some (mkProduct pid s p q))) /\
  (forall n f product w1 t,
      tp1.update_product pid n p q f w = (Return (Some product), w1, t) ->
      id product = pid /\
      live w1 = live w /\
      result (tp1.get_product pid f' w1) = Return (Some product)).
Proof.
  split.
  - intros r Hfound Hvalid (Hfits & _).
    unfold tp1.update_product, bind, no_faults. rewrite Hvalid.
    unfold_api. step. rewrite Hfound. step.
    rewrite (column_name_short s Hfits). step.
    rewrite (find_by_id_id _ _ _ Hfound).
    rewrite (find_by_id_set_row pid s p q _ r Hfound). step. reflexivity.
  - intros n f product w1 t Hupdate.
    pose proof (proj1 (proj2 (proj2 (proj2 (tp1_session_released f w))))
                  pid n p q) as Hlive.
    rewrite Hupdate in Hlive. cbn [after fst snd] in Hlive.
    revert Hupdate. unfold tp1.update_product, bind.
    destruct (tp1_validate_product_cases n p q f w) as [-> | [m ->]];
      [| discriminate].
    exec; intros [= <- <- <-].
    match goal with
    | H : find_by_id pid (rows (db w)) = Some ?r,
      H' : find_by_id (id ?r) _ = Some _ |- _ =>
        pose proof (find_by_id_id _ _ _ H) as Hid; rewrite Hid in H';
        pose proof H' as Hsame;
        rewrite (find_by_id_set_row pid _ p q _ r H) in H';
        injection H' as <-
    end.
    split; [reflexivity |]. split; [exact Hlive |].
    unfold tp1.get_product. unfold_api. step. rewrite Hquery. step.
    rewrite Hid. rewrite Hsame. step. reflexivity.
Qed.

(** [update_product(1, "Gadget", 12.5, 3)] on the store that holds product
    1, then [get_product(1)]. *)
Lemma update_then_read_witness :
  result (tp1.update_product 1 (Some gadget) f12_5 3 no_faults one_widget)
  = Return (Some (mkProduct 1 gadget f12_5 3)) /\
  result (tp1.get_product 1 no_faults
            (after (tp1.update_product 1 (Some gadget) f12_5 3 no_faults
                      one_widget)))
  = Return (Some (mkProduct 1 gadget f12_5 3)).
Proof.
  destruct (update_then_read 1 gadget f12_5 3 no_faults one_widget eq_refl)
    as [Hupdate Hread].
  split.
  - apply (Hupdate (mkProduct 1 widget f9_99 5)).
    + reflexivity.
    + intros f w. reflexivity.
    + split; [apply Nat.leb_le; reflexivity |].
      split; [reflexivity |]. split; [discriminate | lia].
  - exact (proj2 (proj2 (Hread (Some gadget) no_faults
                           (mkProduct 1 gadget f12_5 3) _ _ eq_refl))).
Defined.

(** ** The two front ends side by side *)

Lemma cons_neq {A} (a : A) (l : list A) : a :: l <> l.
Proof.
  intros H. apply (f_equal (@List.length A)) in H. simpl in H. lia.
Qed.

(** A SOAP operation leaves the sessions as they were exactly when no store
    call raised during it: on the paths without store error (success, not
    found, input refused) every session it opened is closed. *)
Theorem soap_session_released_iff_no_store_error
    (str_float : float -> pystr) (c : SoapCall) (f : Faults) (w : World) :
  live (after (soap str_float c f w)) = live w <->
  ~ exists k cause, In (Failed k cause) (trace (soap str_float c f w)).
Proof.
  destruct c as [n p q | pid | pid n p q | pid]; unfold soap.
  - unfold part2.CreateProduct, part2.error_string, try_except, bind.
    destruct (part2_validate_product_cases n p q f w) as [-> | [m ->]];
      [| simpl; split; [intros _ (k & c & []) | reflexivity]].
    exec;
      (split;
       [ intros H;
         first [ now apply cons_neq in H
               | intros (k & c & Hin); in_trace Hin ]
       | intros H;
         first [ reflexivity
               | exfalso; apply H; do 2 eexists; simpl;
                 repeat (first [left; reflexivity | right]) ] ]).
  - unfold part2.GetProduct, part2.error_string, try_except, bind.
    destruct (part2_validate_id_cases pid f w) as [[_ ->] | [_ ->]];
      [| simpl; split; [intros _ (k & c & []) | reflexivity]].
    exec;
      (split;
       [ intros H;
         first [ now apply cons_neq in H
               | intros (k & c & Hin); in_trace Hin ]
       | intros H;
         first [ reflexivity
               | exfalso; apply H; do 2 eexists; simpl;
                 repeat (first [left; reflexivity | right]) ] ]).
  - unfold part2.UpdateProduct, part2.error_string, try_except, bind.
    destruct (part2_validate_id_cases pid f w) as [[_ ->] | [_ ->]];
      [| simpl; split; [intros _ (k & c & []) | reflexivity]].
    destruct (part2_validate_product_cases n p q f w) as [-> | [m ->]];
      [| simpl; split; [intros _ (k & c & []) | reflexivity]].
    exec;
      (split;
       [ intros H;
         first [ now apply cons_neq in H
               | intros (k & c & Hin); in_trace Hin ]
       | intros H;
         first [ reflexivity
               | exfalso; apply H; do 2 eexists; simpl;
                 repeat (first [left; reflexivity | right]) ] ]).
  - unfold part2.DeleteProduct, part2.error_string, try_except, bind.
    destruct (part2_validate_id_cases pid f w) as [[_ ->] | [_ ->]];
      [| simpl; split; [intros _ (k & c & []) | reflexivity]].
    exec;
      (split;
       [ intros H;
         first [ now apply cons_neq in H
               | intros (k & c & Hin); in_trace Hin ]
       | intros H;
         first [ reflexivity
               | exfalso; apply H; do 2 eexists; simpl;
                 repeat (first [left; reflexivity | right]) ] ]).
Qed.

(** The two front ends write the same thing: under the same behaviour of
    the store, a create through [tp1.py] and a create through the SOAP
    service leave the same database, and so do an update and a delete of a
    positive identifier; this holds on the error paths too. *)
Theorem front_ends_write_the_same
    (pid : Z) (n : option pystr) (p : float) (q : Z) (f : Faults) (w : World)
    (Hpid : 0 < pid) :
  db (after (tp1.create_product n p q f w))
  = db (after (part2.CreateProduct n p q f w)) /\
  db (after (tp1.update_product pid n p q f w))
  = db (after (part2.UpdateProduct pid n p q f w)) /\
  db (after (tp1.delete_product pid f w))
  = db (after (part2.DeleteProduct pid f w)).
Proof.
  split; [| split].
  - unfold tp1.create_product, part2.CreateProduct, part2.error_string,
      try_except, bind.
    destruct (validate_product_both n p q) as [[-> ->] | (m & -> & ->)];
      [| reflexivity].
    exec; reflexivity.
  - unfold tp1.update_product, part2.UpdateProduct, part2.error_string,
      try_except, bind.
    destruct (part2_validate_id_cases pid f w) as [[_ ->] | [? _]]; [| lia].
    destruct (validate_product_both n p q) as [[-> ->] | (m & -> & ->)];
      [| reflexivity].
    exec; reflexivity.
  - unfold tp1.delete_product, part2.DeleteProduct, part2.error_string,
      try_except, bind.
    destruct (part2_validate_id_cases pid f w) as [[_ ->] | [? _]]; [| lia].
    exec; reflexivity.
Qed.

(** An update of product 1 through both front ends, the refresh of [tp1.py]
    failing: both have written the new values. *)
Lemma front_ends_write_the_same_witness :
  db (after (tp1.update_product 1 (Some gadget) f12_5 3 refresh_fails
               one_widget))
  = db (after (part2.UpdateProduct 1 (Some gadget) f12_5 3 refresh_fails
                 one_widget)).
Proof.
  exact (proj1 (proj2 (front_ends_write_the_same 1 (Some gadget) f12_5 3
                         refresh_fails one_widget ltac:(lia)))).
Defined.

(** The store after the sample run of both front ends: a create through
    each. *)
Lemma serve_all_keeps_acceptable_witness :
  rows_acceptable
    (db (serve_all (fun _ => [])
           [Desktop (create_product_ (Some widget) f9_99 5) no_faults;
            Soap (CreateProduct_ (Some gadget) f12_5 (-3)) no_faults;
            Soap (CreateProduct_ (Some gadget) f12_5 3) refresh_fails]
           empty_world)).
Proof.
  apply serve_all_keeps_acceptable.
  intros r [].
Defined.

(** Every function of [tp1.py] closes the session it opened, on every path:
    the sessions its trace closes are the sessions its trace opens, and the
    sessions left open afterwards are those that were open before. *)
Theorem tp1_closes_every_session_it_opens (f : Faults) (w : World) :
  (forall n p q,
      closed (trace (tp1.create_product n p q f w))
      = opened (trace (tp1.create_product n p q f w)) /\
      live (after (tp1.create_product n p q f w)) = live w) /\
  (forall pid,
      closed (trace (tp1.get_product pid f w))
      = opened (trace (tp1.get_product pid f w)) /\
      live (after (tp1.get_product pid f w)) = live w) /\
  (closed (trace (tp1.get_all_products f w))
   = opened (trace (tp1.get_all_products f w)) /\
   live (after (tp1.get_all_products f w)) = live w) /\
  (forall pid n p q,
      closed (trace (tp1.update_product pid n p q f w))
      = opened (trace (tp1.update_product pid n p q f w)) /\
      live (after (tp1.update_product pid n p q f w)) = live w) /\
  (forall pid,
      closed (trace (tp1.delete_product pid f w))
      = opened (trace (tp1.delete_product pid f w)) /\
      live (after (tp1.delete_product pid f w)) = live w).
Proof.
  split; [| split; [| split; [| split]]]; intros.
  - unfold tp1.create_product, bind.
    destruct (tp1_validate_product_cases n p q f w) as [-> | [m ->]];
      [| split; reflexivity].
    exec; split; reflexivity.
  - unfold tp1.get_product. exec; split; reflexivity.
  - unfold tp1.get_all_products. exec; split; reflexivity.
  - unfold tp1.update_product, bind.
    destruct (tp1_validate_product_cases n p q f w) as [-> | [m ->]];
      [| split; reflexivity].
    exec; split; reflexivity.
  - unfold tp1.delete_product. exec; split; reflexivity.
Qed.

(** ** The handlers of the window *)

Ltac unfold_gui :=
  unfold ProductGUI.add_product, ProductGUI.update_product,
    ProductGUI.delete_product, ProductGUI.search_product,
    ProductGUI.show_products, ProductGUI.get_inputs_for_create_update,
    ProductGUI.clear_inputs, ProductGUI.not_found, try_except_Exception,
    call, of_parse, text_of, show_dialog, output_clear, output_setText,
    update_gui, gbind, gret, graise.

Ltac gstep :=
  repeat (progress
    (cbn [fst snd db live next_sid rows next_id app loaded id name price
          quantity result after trace str_exn on_query on_commit on_refresh
          g_result g_gui g_world g_trace id_input name_input price_input
          quantity_input output dialogs];
     rewrite ?work_of_head, ?set_work_head, ?drop_session_head)).

Ltac gexec := unfold_gui; unfold_api; repeat (gstep; try destruct_stuck).

(** A function of [tp1.py] leaves the sessions as they were, whatever it
    returns. *)
Lemma released_create n p q f w r w' t :
  tp1.create_product n p q f w = (r, w', t) -> live w' = live w.
Proof.
  intros H.
  pose proof (proj1 (tp1_session_released f w) n p q) as L.
  now rewrite H in L.
Qed.

Lemma released_get pid f w r w' t :
  tp1.get_product pid f w = (r, w', t) -> live w' = live w.
Proof.
  intros H.
  pose proof (proj1 (proj2 (tp1_session_released f w)) pid) as L.
  now rewrite H in L.
Qed.

Lemma released_get_all f w r w' t :
  tp1.get_all_products f w = (r, w', t) -> live w' = live w.
Proof.
  intros H.
  pose proof (proj1 (proj2 (proj2 (tp1_session_released f w)))) as L.
  now rewrite H in L.
Qed.

Lemma released_update pid n p q f w r w' t :
  tp1.update_product pid n p q f w = (r, w', t) -> live w' = live w.
Proof.
  intros H.
  pose proof (proj1 (proj2 (proj2 (proj2 (tp1_session_released f w))))
                pid n p q) as L.
  now rewrite H in L.
Qed.

Lemma released_delete pid f w r w' t :
  tp1.delete_product pid f w = (r, w', t) -> live w' = live w.
Proof.
  intros H.
  pose proof (proj2 (proj2 (proj2 (proj2 (tp1_session_released f w)))) pid)
    as L.
  now rewrite H in L.
Qed.

Ltac use_released :=
  repeat match goal with
  | H : tp1.create_product _ _ _ _ _ = _ |- _ =>
      apply released_create in H
  | H : tp1.get_product _ _ _ = _ |- _ => apply released_get in H
  | H : tp1.get_all_products _ _ = _ |- _ => apply released_get_all in H
  | H : tp1.update_product _ _ _ _ _ _ = _ |- _ =>
      apply released_update in H
  | H : tp1.delete_product _ _ _ = _ |- _ => apply released_delete in H
  end.

Section Window.

Variable py_float : pystr -> parse float.
Variable py_int : pystr -> parse Z.
Variable str_float : float -> pystr.

Local Notation "'show_products'" := (ProductGUI.show_products str_float).
Local Notation "'add_product'" :=
  (ProductGUI.add_product py_float py_int str_float).
Local Notation "'update_product'" :=
  (ProductGUI.update_product py_float py_int str_float).
Local Notation "'delete_product'" :=
  (ProductGUI.delete_product py_int str_float).
Local Notation "'search_product'" :=
  (ProductGUI.search_product py_int str_float).
Local Notation "'listing'" := (ProductGUI.listing str_float).
Local Notation "'product_line'" := (ProductGUI.product_line str_float).

(** The loop of [show_products] builds the header followed by the lines. *)
Lemma fold_left_lines (l : list Product) (h : pystr) :
  fold_left (fun text_result p => text_result ++ product_line p) l h
  = h ++ List.concat (map product_line l).
Proof.
  revert h. induction l as [| a l IH]; intros h; simpl.
  - now rewrite app_nil_r.
  - rewrite IH, <- app_assoc. reflexivity.
Qed.

(** What [show_products] does, in full. *)
Lemma show_products_run (f : Faults) (g : Gui) (w : World) :
  show_products f g w
  = match on_query f with
    | None =>
        (Return tt,
         mkGui (id_input g) (name_input g) (price_input g) (quantity_input g)
               (listing (rows (db w))) (dialogs g),
         mkWorld (db w) (live w) (S (next_sid w)),
         [Open (next_sid w); Query (next_sid w); Close (next_sid w)])
    | Some cause =>
        (Return tt,
         mkGui (id_input g) (name_input g) (price_input g) (quantity_input g)
               (output g)
               (dialogs g
                ++ [critical (lit "Error") (lit "Database error: " ++ cause)]),
         mkWorld (db w) (live w) (S (next_sid w)),
         [Open (next_sid w); Query (next_sid w); Failed CQuery cause;
          Close (next_sid w)])
    end.
Proof.
  unfold ProductGUI.show_products, try_except_Exception, gbind, call.
  unfold tp1.get_all_products. unfold_api. gstep.
  destruct (on_query f) as [cause |]; gstep; [reflexivity |].
  destruct (rows (db w)) as [| a l] eqn:E; unfold_gui; gstep;
    [reflexivity |].
  rewrite fold_left_lines. unfold ProductGUI.listing.
  rewrite <- !app_assoc. reflexivity.
Qed.

(** [show_products] lists every stored row: when the query raises no error
    the output area shows the notice " No products found." for an empty
    table, and else the header and one line for each row, in storage order;
    the input lines, the message boxes and the database are untouched.  When
    the query raises, the output area keeps what it showed and one critical
    box carries "Database error: " and the cause. *)
Theorem show_products_lists_every_row (f : Faults) (g : Gui) (w : World) :
  g_result (show_products f g w) = Return tt /\
  db (g_world (show_products f g w)) = db w /\
  live (g_world (show_products f g w)) = live w /\
  (on_query f = None ->
   g_gui (show_products f g w)
   = mkGui (id_input g) (name_input g) (price_input g) (quantity_input g)
           (listing (rows (db w))) (dialogs g)) /\
  (forall cause,
      on_query f = Some cause ->
      g_gui (show_products f g w)
      = mkGui (id_input g) (name_input g) (price_input g) (quantity_input g)
              (output g)
              (dialogs g
               ++ [critical (lit "Error")
                     (lit "Database error: " ++ cause)])).
Proof.
  rewrite show_products_run.
  destruct (on_query f) as [cause |]; simpl;
    repeat split; try reflexivity; try discriminate.
  intros c [= <-]. reflexivity.
Qed.


(** No exception leaves a handler of the window, and none leaves a session
    open: whatever the input lines hold, whatever [float] and [int] make of
    them and whatever the store does, each handler returns, and the sessions
    left open are those that were open before. *)
Theorem handlers_return_and_release_sessions
    (f1 f2 : Faults) (g : Gui) (w : World) :
  (g_result (add_product f1 f2 g w) = Return tt /\
   live (g_world (add_product f1 f2 g w)) = live w) /\
  (g_result (update_product f1 f2 g w) = Return tt /\
   live (g_world (update_product f1 f2 g w)) = live w) /\
  (g_result (delete_product f1 f2 g w) = Return tt /\
   live (g_world (delete_product f1 f2 g w)) = live w) /\
  (g_result (search_product f1 g w) = Return tt /\
   live (g_world (search_product f1 g w)) = live w) /\
  (g_result (show_products f1 g w) = Return tt /\
   live (g_world (show_products f1 g w)) = live w).
Proof.
  repeat apply conj; gexec; use_released; try reflexivity; congruence.
Qed.

Ltac unfold_handler :=
  unfold ProductGUI.add_product, ProductGUI.update_product,
    ProductGUI.delete_product, ProductGUI.search_product,
    ProductGUI.get_inputs_for_create_update, ProductGUI.clear_inputs,
    try_except_Exception, call, of_parse, text_of, show_dialog, output_clear,
    output_setText, update_gui, gbind, gret, graise.

Lemma tp1_validate_product_decides n p q :
  accepts (tp1.validate_product n p q) \/
  exists msg, forall f w,
      tp1.validate_product n p q f w = (Raise (ValueError msg), w, []).
Proof.
  destruct (validate_product_both n p q) as [[H _] | (m & _ & H)];
    [left; exact H | right; eauto].
Qed.

(** Input that cannot be saved: when [float] refuses the price line, or
    [int] the quantity line, or [validate_product] the values, the add
    handler shows one critical box whose text is the message of that
    [ValueError], and does nothing else: no store event happens, the world
    is untouched, and the input lines and the output area keep their text.
    So does the update handler, whose box carries the message of [int] on
    the identifier line when that line does not parse.  A form whose lines
    are not accepted is always refused with such a message. *)
Theorem refused_form_is_kept
    (f1 f2 : Faults) (g : Gui) (w : World) :
  (forall msg,
      ProductGUI.inputs_refused py_float py_int g msg ->
      add_product f1 f2 g w
      = (Return tt,
         mkGui (id_input g) (name_input g) (price_input g) (quantity_input g)
               (output g) (dialogs g ++ [critical (lit "Error") msg]),
         w, []) /\
      update_product f1 f2 g w
      = (Return tt,
         mkGui (id_input g) (name_input g) (price_input g) (quantity_input g)
               (output g)
               (dialogs g
                ++ [critical (lit "Error")
                      match py_int (id_input g) with
                      | Invalid m => m
                      | Parsed _ => msg
                      end]),
         w, [])) /\
  ((forall p q, ~ ProductGUI.inputs_accepted py_float py_int g p q) ->
   exists msg, ProductGUI.inputs_refused py_float py_int g msg).
Proof.
  split.
  - intros msg Hrefused. unfold ProductGUI.inputs_refused in Hrefused.
    split.
    + unfold_handler.
      destruct (py_float (price_input g)) as [p | m]; gstep;
        [| rewrite Hrefused; reflexivity].
      destruct (py_int (quantity_input g)) as [q | m]; gstep;
        [| rewrite Hrefused; reflexivity].
      unfold tp1.create_product, bind. rewrite Hrefused. gstep. reflexivity.
    + unfold_handler.
      destruct (py_int (id_input g)) as [k | m0]; gstep; [| reflexivity].
      destruct (py_float (price_input g)) as [p | m]; gstep;
        [| rewrite Hrefused; reflexivity].
      destruct (py_int (quantity_input g)) as [q | m]; gstep;
        [| rewrite Hrefused; reflexivity].
      unfold tp1.update_product, bind. rewrite Hrefused. gstep. reflexivity.
  - intros Hnone. unfold ProductGUI.inputs_refused.
    destruct (py_float (price_input g)) as [p | m] eqn:Ep;
      [| eexists; reflexivity].
    destruct (py_int (quantity_input g)) as [q | m] eqn:Eq;
      [| eexists; reflexivity].
    destruct (tp1_validate_product_decides (Some (name_input g)) p q)
      as [Ha | [m Hm]].
    + exfalso. apply (Hnone p q). repeat split; assumption.
    + exists m. exact Hm.
Qed.

(** The add handler shows the outcome of [create_product]: when the price
    and quantity lines parse and the refresh of the list raises no error,
    a create that returns is answered by the information box with the new
    identifier, the list of the rows as they then are, and empty input
    lines; a create that raises is answered by one critical box with its
    message, the input lines and the output area keeping their text.  The
    database is left as [create_product] left it. *)
Theorem add_product_shows_the_outcome
    (f1 f2 : Faults) (g : Gui) (w : World) (p : float) (q : Z)
    (Hprice : py_float (price_input g) = Parsed p)
    (Hquantity : py_int (quantity_input g) = Parsed q)
    (Hlist : on_query f2 = None) :
  let run := tp1.create_product (Some (name_input g)) p q f1 w in
  g_gui (add_product f1 f2 g w)
  = match result run with
    | Return product =>
        mkGui [] [] [] [] (listing (rows (db (after run))))
              (dialogs g
               ++ [information (lit "Success")
                     (lit " Product added (ID=" ++ str_int (id product)
                      ++ lit ")")])
    | Raise e =>
        mkGui (id_input g) (name_input g) (price_input g) (quantity_input g)
              (output g) (dialogs g ++ [critical (lit "Error") (str_exn e)])
    end /\
  db (g_world (add_product f1 f2 g w)) = db (after run).
Proof.
  intros run. subst run. unfold_handler. rewrite Hprice. gstep.
  rewrite Hquantity. gstep.
  destruct (tp1.create_product _ _ _ _ _) as [[[product | e] w1] t]; gstep;
    [| split; reflexivity].
  rewrite show_products_run, Hlist. gstep. split; reflexivity.
Qed.

(** The update handler shows the outcome of [update_product]: when the three
    number lines parse and the refresh of the list raises no error, an
    update that returns a record is answered by the information box, one
    that returns [None] by the warning " Product not found", and in both
    cases the list is refreshed and the input lines are emptied; an update
    that raises is answered by one critical box, the form keeping its
    text. *)
Theorem update_product_shows_the_outcome
    (f1 f2 : Faults) (g : Gui) (w : World) (k : Z) (p : float) (q : Z)
    (Hid : py_int (id_input g) = Parsed k)
    (Hprice : py_float (price_input g) = Parsed p)
    (Hquantity : py_int (quantity_input g) = Parsed q)
    (Hlist : on_query f2 = None) :
  let run := tp1.update_product k (Some (name_input g)) p q f1 w in
  g_gui (update_product f1 f2 g w)
  = match result run with
    | Return updated =>
        mkGui [] [] [] [] (listing (rows (db (after run))))
              (dialogs g
               ++ [match updated with
                   | Some _ =>
                       information (lit "Success")
                         (lit " Product updated (ID=" ++ str_int k ++ lit ")")
                   | None => ProductGUI.not_found
                   end])
    | Raise e =>
        mkGui (id_input g) (name_input g) (price_input g) (quantity_input g)
              (output g) (dialogs g ++ [critical (lit "Error") (str_exn e)])
    end /\
  db (g_world (update_product f1 f2 g w)) = db (after run).
Proof.
  intros run. subst run. unfold_handler. rewrite Hid. gstep.
  rewrite Hprice. gstep. rewrite Hquantity. gstep.
  destruct (tp1.update_product _ _ _ _ _ _) as [[[updated | e] w1] t]; gstep;
    [| split; reflexivity].
  destruct updated as [r |]; gstep;
    rewrite show_products_run, Hlist; gstep; split; reflexivity.
Qed.

(** The delete handler shows the outcome of [delete_product]: when the
    identifier line parses and the refresh of the list raises no error, a
    delete that returns [True] is answered by the information box and one
    that returns [False] by the warning " Product not found"; in both cases
    the list is refreshed and the input lines are emptied; a delete that
    raises is answered by one critical box, the form keeping its text. *)
Theorem delete_product_shows_the_outcome
    (f1 f2 : Faults) (g : Gui) (w : World) (k : Z)
    (Hid : py_int (id_input g) = Parsed k)
    (Hlist : on_query f2 = None) :
  let run := tp1.delete_product k f1 w in
  g_gui (delete_product f1 f2 g w)
  = match result run with
    | Return success =>
        mkGui [] [] [] [] (listing (rows (db (after run))))
              (dialogs g
               ++ [if success : bool
                   then information (lit "Success")
                          (lit " Product deleted (ID=" ++ str_int k ++ lit ")")
                   else ProductGUI.not_found])
    | Raise e =>
        mkGui (id_input g) (name_input g) (price_input g) (quantity_input g)
              (output g) (dialogs g ++ [critical (lit "Error") (str_exn e)])
    end /\
  db (g_world (delete_product f1 f2 g w)) = db (after run).
Proof.
  intros run. subst run. unfold_handler. rewrite Hid. gstep.
  destruct (tp1.delete_product _ _ _) as [[[success | e] w1] t]; gstep;
    [| split; reflexivity].
  destruct success; gstep;
    rewrite show_products_run, Hlist; gstep; split; reflexivity.
Qed.

(** The search handler only writes the output area: it never changes the
    database or the input lines, whatever happens; and when the identifier
    line parses and the query raises no error it shows the record found, or
    " Product not found", and no message box. *)
Theorem search_product_only_writes_the_output
    (f : Faults) (g : Gui) (w : World) :
  let g' := g_gui (search_product f g w) in
  db (g_world (search_product f g w)) = db w /\
  (id_input g' = id_input g /\ name_input g' = name_input g /\
   price_input g' = price_input g /\ quantity_input g' = quantity_input g) /\
  (forall k,
      py_int (id_input g) = Parsed k -> on_query f = None ->
      dialogs g' = dialogs g /\
      output g'
      = match find_by_id k (rows (db w)) with
        | Some p => ProductGUI.product_found str_float p
        | None => lit " Product not found"
        end).
Proof.
  intros g'. subst g'. unfold_handler.
  destruct (py_int (id_input g)) as [k | m]; gstep.
  2: { split; [reflexivity |]. split; [repeat split; reflexivity |].
       intros k0 Hk. discriminate Hk. }
  unfold tp1.get_product. unfold_api. gstep.
  destruct (on_query f) as [cause |]; gstep.
  { split; [reflexivity |]. split; [repeat split; reflexivity |].
    intros k0 _ Hq. discriminate Hq. }
  destruct (find_by_id k (rows (db w))) as [r |] eqn:E; gstep;
    (split; [reflexivity |]; split; [repeat split; reflexivity |];
     intros k0 Hk _; injection Hk as <-; rewrite E; split; reflexivity).
Qed.

End Window.

(** The form with a price that is no number, on the empty store. *)
Lemma refused_form_is_kept_witness :
  ProductGUI.add_product sample_float sample_int sample_str_float
    no_faults no_faults broken_form empty_world
  = (Return tt,
     mkGui (lit "1") widget (lit "abc") (lit "5") []
           [critical (lit "Error") (lit "could not convert string to float")],
     empty_world, []).
Proof.
  apply (proj1 (refused_form_is_kept sample_float sample_int sample_str_float
                  no_faults no_faults broken_form empty_world)
           (lit "could not convert string to float")
           eq_refl).
Defined.

(** The sample form added to the empty store. *)
Lemma add_product_shows_the_outcome_witness :
  g_gui (ProductGUI.add_product sample_float sample_int sample_str_float
           no_faults no_faults widget_form empty_world)
  = mkGui [] [] [] []
          (lit " Product List:" ++ nl ++ nl
           ++ lit "ID=1 | Name=Widget | Price=9.99 | Qty=5" ++ nl)
          [information (lit "Success") (lit " Product added (ID=1)")] /\
  db (g_world (ProductGUI.add_product sample_float sample_int
                 sample_str_float no_faults no_faults widget_form
                 empty_world))
  = mkDb [mkProduct 1 widget f9_99 5] 2.
Proof.
  exact (add_product_shows_the_outcome sample_float sample_int
           sample_str_float no_faults no_faults widget_form empty_world
           f9_99 5 eq_refl eq_refl eq_refl).
Defined.

(** The sample form used to update product 7, which the store does not
    hold. *)
Lemma update_product_shows_the_outcome_witness :
  g_gui (ProductGUI.update_product sample_float sample_int sample_str_float
           no_faults no_faults
           (mkGui (lit "7") widget (lit "12.5") (lit "3") [] [])
           one_widget)
  = mkGui [] [] [] []
          (lit " Product List:" ++ nl ++ nl
           ++ lit "ID=1 | Name=Widget | Price=9.99 | Qty=5" ++ nl)
          [warning (lit "Not Found") (lit " Product not found")].
Proof.
  exact (proj1 (update_product_shows_the_outcome sample_float sample_int
                  sample_str_float no_faults no_faults
                  (mkGui (lit "7") widget (lit "12.5") (lit "3") [] [])
                  one_widget 7 f12_5 3 eq_refl eq_refl eq_refl eq_refl)).
Defined.

(** The sample form used to delete product 1, the only row. *)
Lemma delete_product_shows_the_outcome_witness :
  g_gui (ProductGUI.delete_product sample_int sample_str_float
           no_faults no_faults widget_form one_widget)
  = mkGui [] [] [] [] (lit " No products found.")
          [information (lit "Success") (lit " Product deleted (ID=1)")] /\
  db (g_world (ProductGUI.delete_product sample_int sample_str_float
                 no_faults no_faults widget_form one_widget))
  = mkDb [] 2.
Proof.
  exact (delete_product_shows_the_outcome sample_int sample_str_float
           no_faults no_faults widget_form one_widget 1 eq_refl eq_refl).
Defined.

(** The list of the store that holds product 1. *)
Lemma show_products_lists_every_row_witness :
  g_gui (ProductGUI.show_products sample_str_float no_faults widget_form
           one_widget)
  = mkGui (lit "1") widget (lit "9.99") (lit "5")
          (lit " Product List:" ++ nl ++ nl
           ++ lit "ID=1 | Name=Widget | Price=9.99 | Qty=5" ++ nl)
          [].
Proof.
  exact (proj1 (proj2 (proj2 (proj2
    (show_products_lists_every_row sample_str_float no_faults widget_form
       one_widget)))) eq_refl).
Defined.

(** A search for product 1 in the store that holds it. *)
Lemma search_product_only_writes_the_output_witness :
  output (g_gui (ProductGUI.search_product sample_int sample_str_float
                   no_faults widget_form one_widget))
  = lit " Product Found:" ++ nl ++ nl ++ lit "ID: 1" ++ nl
    ++ lit "Name: Widget" ++ nl ++ lit "Price: 9.99" ++ nl
    ++ lit "Quantity: 5" ++ nl.
Proof.
  exact (proj2 (proj2 (proj2
    (search_product_only_writes_the_output sample_int sample_str_float
       no_faults widget_form one_widget)) 1 eq_refl eq_refl)).
Defined.
